(** * exceltograph: bar charts from spreadsheet tables

    A shallow embedding of [streamlit_app.py]: the column classification
    ([find_category_column]), the per-sheet chart loop
    ([render_sheet_to_pdf]) and the per-sheet exception boundary of the
    main loop, followed by the properties of the chart plan they produce.

    Modelling conventions.
    - A pandas column is a name with a [Series]; its dtype is either numeric
      (cells are numbers or NaN, the blank cell of a spreadsheet) or object
      (cells are given by their [str()] form).  Numbers are rationals:
      rounding of binary floating point is not modelled.
    - The frame's index is the default [RangeIndex] that [pd.read_excel]
      builds: row positions [0 .. nrows-1].
    - The [PdfPages] object is the list of pages saved so far.  Code that
      saves pages and may raise lives in a small state-and-exception monad,
      so that the pages saved before an exception stay in the document, as
      they do in the mutable Python object.
    - What matplotlib draws is recorded as the arguments it was called
      with (a [ChartSpec]).  Its refusals that a spreadsheet can trigger
      are exceptions raised where the call stands in the script: in
      [ax.bar] a category label that is NaN, error magnitudes that are
      text or negative; in [ax.set_ylim] a limit that is NaN; in
      [ax.legend] a column count of zero; in [plt.tight_layout] and
      [pdf.savefig] a text that cannot be laid out.
    - What lies outside the script and varies with its environment is a
      parameter [env] of the model: whether [astype(str)] leaves a blank
      cell blank (it does in recent pandas), and which texts matplotlib
      refuses to lay out (its mathtext parser).  Every theorem holds for
      every environment; the examples are run in [sample_env]. *)

From Stdlib Require Import List String Ascii Bool Arith Lia QArith DecimalString.
From Stdlib Require Import Lqa FinFun.
Import ListNotations.

Local Open Scope string_scope.
Local Open Scope list_scope.

(* ================================================================= *)
(** ** Data model *)

(** A numeric cell: [None] is NaN. *)
Definition num := option Q.

Inductive Series : Type :=
| NumSeries (cells : list num)
| ObjSeries (cells : list string).

Record DataFrame : Type := mkDataFrame {
  nrows : nat;
  frame : list (string * Series)
}.

Definition columns (df : DataFrame) : list string := map fst (frame df).

(** [df[c]]: the column called [c]. *)
Fixpoint lookup (c : string) (cols : list (string * Series)) : option Series :=
  match cols with
  | [] => None
  | (n, s) :: rest => if String.eqb c n then Some s else lookup c rest
  end.

Definition get_col (df : DataFrame) (c : string) : option Series :=
  lookup c (frame df).

(** [c in df.columns] *)
Definition has_col (df : DataFrame) (c : string) : bool :=
  existsb (String.eqb c) (columns df).

(** [pd.api.types.is_numeric_dtype(df[c])] *)
Definition is_numeric_dtype (s : Series) : bool :=
  match s with NumSeries _ => true | ObjSeries _ => false end.

Definition col_is_numeric (df : DataFrame) (c : string) : bool :=
  match get_col df c with
  | Some s => is_numeric_dtype s
  | None => false
  end.

Definition series_len (s : Series) : nat :=
  match s with NumSeries l => List.length l | ObjSeries l => List.length l end.

(** The invariant every pandas frame satisfies: each column has one cell
    per row. *)
Definition well_formed (df : DataFrame) : Prop :=
  Forall (fun p => series_len (snd p) = nrows df) (frame df).

(** [df.empty]: some axis has length zero. *)
Definition df_empty (df : DataFrame) : bool :=
  (nrows df =? 0)%nat || (List.length (frame df) =? 0)%nat.

(** [str(i)] for a row position. *)
Definition str_of_nat (n : nat) : string :=
  NilEmpty.string_of_uint (Nat.to_uint n).

(** [df.index.astype(str)] *)
Definition index_as_str (df : DataFrame) : list string :=
  map str_of_nat (seq 0 (nrows df)).

(** [df[c] = s]: an existing column is replaced where it stands, a new one
    is added after the last column. *)
Fixpoint assign (c : string) (s : Series) (cols : list (string * Series))
  : list (string * Series) :=
  match cols with
  | [] => [(c, s)]
  | (n, old) :: rest =>
      if String.eqb c n then (n, s) :: rest else (n, old) :: assign c s rest
  end.

Definition set_col (df : DataFrame) (c : string) (s : Series) : DataFrame :=
  mkDataFrame (nrows df) (assign c s (frame df)).

(** [df[c].astype(str).tolist()].  The cells of an object column are kept
    in string form already; a blank cell is the cell [nan] (the form it
    has, and the only way a frame read from a spreadsheet holds that
    text, since [read_excel] reads the text nan as a blank).  Whether the
    label is then the text or still NaN is the environment's
    [astype_str_keeps_nan], asked where the labels are used ([ax_bar]).
    The category column is never numeric (lemma
    [category_column_is_object] below), so the formatting of numbers is
    left out of the model. *)
Definition astype_str_tolist (s : option Series) : list string :=
  match s with
  | Some (ObjSeries l) => l
  | _ => []
  end.

(* ================================================================= *)
(** ** The document and the exceptions *)

Inductive exn : Type :=
| KeyError (label : string)      (* [df[c]] on a label that is not a column *)
| ZeroDivisionError              (* [i % 0] *)
| TypeError                      (* matplotlib: a category label that is NaN *)
| ConversionError                (* matplotlib: error magnitudes that are text *)
| ValueError (msg : string)      (* [max(())]; matplotlib and numpy: a refused
                                    argument, with the message of the check *)
| LayoutError (report : string). (* matplotlib: the ValueError of the text
                                    layout, with the parser's report *)

(** What the script's environment decides.
    - [astype_str_keeps_nan]: [astype(str)] leaves a blank cell of a text
      column as NaN (recent pandas) instead of making it the text nan.
    - [layout_refuses title labels]: the report of the exception that
      [plt.tight_layout()] or [pdf.savefig(fig)] raises for a chart with
      this title and these category labels, if they raise.
    - [error_page_refuses sheet e]: the same for the page of the exception
      handler, whose text is made of the sheet name and [str(e)]. *)
Record Env : Type := mkEnv {
  astype_str_keeps_nan : bool;
  layout_refuses : string -> list string -> option string;
  error_page_refuses : string -> exn -> option string
}.

(** The arguments one chart is drawn with. *)
Record ChartSpec : Type := mkChart {
  title : string;
  categories : list string;
  values : list num;
  yerr : option (list num);
  color : list string;
  ylim : Q * Q;
  legend_labels : list string;
  legend_ncol : nat
}.

(** One saved figure: a chart, or the text page of the exception handler
    ([Fehler in Sheet '<sheet>':] followed by the exception's message). *)
Inductive PageSpec : Type :=
| ChartPage (c : ChartSpec)
| ErrorPage (sheet : string) (e : exn).

Definition PdfPages := list PageSpec.

Inductive outcome (A : Type) : Type :=
| Ok (a : A)
| Raise (e : exn).
Arguments Ok {A} a.
Arguments Raise {A} e.

(** Computations over the open document that may raise. *)
Definition M (A : Type) : Type := PdfPages -> PdfPages * outcome A.

Definition ret {A} (a : A) : M A := fun pdf => (pdf, Ok a).

Definition bind {A B} (m : M A) (k : A -> M B) : M B :=
  fun pdf =>
    match m pdf with
    | (pdf', Ok a) => k a pdf'
    | (pdf', Raise e) => (pdf', Raise e)
    end.

Definition lift {A} (o : outcome A) : M A := fun pdf => (pdf, o).

(** [pdf.savefig(fig)] *)
Definition savefig (p : PageSpec) : M unit := fun pdf => (pdf ++ [p], Ok tt).

(** [try: body / except Exception as e: handler(e)] *)
Definition try_except {A} (body : M A) (handler : exn -> M A) : M A :=
  fun pdf =>
    match body pdf with
    | (pdf', Ok a) => (pdf', Ok a)
    | (pdf', Raise e) => handler e pdf'
    end.

Notation "x <- m ;; k" := (bind m (fun x => k))
  (at level 61, m at next level, right associativity).
Notation "m ;;; k" := (bind m (fun _ => k))
  (at level 61, right associativity).

(** [for x in xs: body(x)] *)
Fixpoint for_each {X} (body : X -> M unit) (xs : list X) : M unit :=
  match xs with
  | [] => ret tt
  | x :: rest => body x ;;; for_each body rest
  end.

(** A list comprehension whose element expression may raise. *)
Fixpoint comprehension {X Y} (f : X -> outcome Y) (xs : list X)
  : outcome (list Y) :=
  match xs with
  | [] => Ok []
  | x :: rest =>
      match f x with
      | Raise e => Raise e
      | Ok y =>
          match comprehension f rest with
          | Raise e => Raise e
          | Ok ys => Ok (y :: ys)
          end
      end
  end.

(* ================================================================= *)
(** ** Colourways *)

Definition colourways : list (string * list string) :=
  [ ("Blau/Grau (Standard Big4)", ["#002060"; "#0050b3"; "#7f7f7f"]);
    ("Grün/Türkis", ["#006400"; "#009999"; "#a6a6a6"]);
    ("Lila/Beere", ["#4B004B"; "#732673"; "#B380B3"]);
    ("Orange/Grau", ["#E46C0A"; "#F4B183"; "#7f7f7f"]) ].

(** The selection box starts on the first entry. *)
Definition selected_colors : list string := ["#002060"; "#0050b3"; "#7f7f7f"].

(* ================================================================= *)
(** ** Helper functions of the script *)

(** Finde die erste nicht-numerische Spalte (als Kategorie). *)
Fixpoint first_non_numeric (df : DataFrame) (cols : list string) : option string :=
  match cols with
  | [] => None
  | col :: rest =>
      if negb (col_is_numeric df col) then Some col
      else first_non_numeric df rest
  end.

Definition find_category_column (df : DataFrame) : option string :=
  first_non_numeric df (columns df).

(** Lines 54-58: the frame and the category label the charts are drawn
    from. *)
Definition with_category (df : DataFrame) : DataFrame * string :=
  match find_category_column df with
  | Some c => (df, c)
  | None => (set_col df "Index" (ObjSeries (index_as_str df)), "Index")
  end.

(** Line 61: [[c for c in df.columns if is_numeric_dtype(df[c])]] *)
Definition value_cols (df : DataFrame) : list string :=
  filter (col_is_numeric df) (columns df).

(** Lines 65-69: the candidates in the order they are tried. *)
Definition candidates (col : string) : list string :=
  [(col ++ "_Fehler")%string; (col ++ "_SD")%string; (col ++ "_Error")%string].

Fixpoint first_present (df : DataFrame) (cands : list string) : option string :=
  match cands with
  | [] => None
  | candidate :: rest =>
      if has_col df candidate then Some candidate else first_present df rest
  end.

Definition find_error_col (df : DataFrame) (col : string) : option string :=
  first_present df (candidates col).

(** [df[c]], raising on a missing label. *)
Definition getitem (df : DataFrame) (c : string) : outcome Series :=
  match get_col df c with
  | Some s => Ok s
  | None => Raise (KeyError c)
  end.

(* ================================================================= *)
(** ** An environment for the examples *)

(** matplotlib's test for math text: the number of dollar signs that are
    not escaped by a backslash is even and not zero. *)
Fixpoint count_dollars (s : string) : nat :=
  match s with
  | EmptyString => 0
  | String a rest =>
      if Ascii.eqb a "$" then S (count_dollars rest)
      else if Ascii.eqb a "\" then
        match rest with
        | String b rest' =>
            if Ascii.eqb b "$" then count_dollars rest' else count_dollars rest
        | EmptyString => 0
        end
      else count_dollars rest
  end.

Definition is_math_text (s : string) : bool :=
  (0 <? count_dollars s)%nat && Nat.even (count_dollars s).

(** An underscore right before a dollar sign: a subscript without an
    argument, which the mathtext parser refuses. *)
Fixpoint has_empty_subscript (s : string) : bool :=
  match s with
  | EmptyString => false
  | String a rest =>
      match rest with
      | String b _ =>
          (Ascii.eqb a "_" && Ascii.eqb b "$") || has_empty_subscript rest
      | EmptyString => false
      end
  end.

Definition sample_report (text : string) : option string :=
  if is_math_text text && has_empty_subscript text
  then Some ("ParseException: " ++ text)%string
  else None.

(** Tick labels are laid out before the title. *)
Fixpoint first_report (texts : list string) : option string :=
  match texts with
  | [] => None
  | t :: rest =>
      match sample_report t with
      | Some r => Some r
      | None => first_report rest
      end
  end.

Definition sample_str (e : exn) : string :=
  match e with
  | KeyError label => label
  | ZeroDivisionError => "integer modulo by zero"
  | TypeError => "'value' must be an instance of str or bytes, not a float"
  | ConversionError => "Failed to convert value(s) to axis units"
  | ValueError msg => msg
  | LayoutError report => report
  end.

Definition newline : string := String (ascii_of_nat 10) EmptyString.

Definition sample_env : Env :=
  {| astype_str_keeps_nan := true;
     layout_refuses := fun title labels => first_report (labels ++ [title]);
     error_page_refuses := fun sheet e =>
       sample_report ("Fehler in Sheet '" ++ sheet ++ "':" ++ newline
                      ++ sample_str e)%string |}.

Section Environment.

Variable env : Env.

(* ================================================================= *)
(** ** Python and matplotlib primitives used by the chart loop *)

(** [x > m] on floats: every comparison with NaN is false. *)
Definition py_gt (x m : num) : bool :=
  match x, m with
  | Some a, Some b => negb (Qle_bool a b)
  | _, _ => false
  end.

(** The builtin [max(iterable)]: the first item, replaced by each later
    item that compares greater. *)
Definition max_step (m x : num) : num := if py_gt x m then x else m.

Definition py_max (vs : list num) : outcome num :=
  match vs with
  | [] => Raise (ValueError "max() arg is an empty sequence")
  | v :: rest => Ok (fold_left max_step rest v)
  end.

(** [m * k] on floats. *)
Definition times (m : num) (k : Q) : num := option_map (fun q => q * k)%Q m.

(** Line 82: [[colors[i % len(colors)] for i in range(len(categories))]] *)
Definition pick_color (colors : list string) (i : nat) : outcome string :=
  if (List.length colors =? 0)%nat then Raise ZeroDivisionError
  else Ok (nth (i mod List.length colors) colors "").

Definition bar_colors (colors categories : list string) : outcome (list string) :=
  comprehension (pick_color colors) (seq 0 (List.length categories)).

(** An error magnitude below zero (NaN is none). *)
Definition is_negative (x : num) : bool :=
  match x with
  | Some v => negb (Qle_bool 0 v)
  | None => false
  end.

(** [ax.bar(categories, values, yerr=errors, ...)]: the heights and error
    magnitudes that are drawn.  Refused, in the order matplotlib meets
    them: a category label that is NaN (the units of the category axis),
    error magnitudes that are text (their conversion to axis units),
    an error magnitude that is negative (the check of [errorbar]).
    Heights are always numeric here (lemma [value_col_is_numeric]). *)
Definition ax_bar (cats : list string) (vals : Series) (errors : option Series)
  : outcome (list num * option (list num)) :=
  if astype_str_keeps_nan env && existsb (String.eqb "nan") cats
  then Raise TypeError
  else
    match vals with
    | ObjSeries _ => Raise ConversionError
    | NumSeries heights =>
        match errors with
        | None => Ok (heights, None)
        | Some (NumSeries errs) =>
            if existsb is_negative errs
            then Raise (ValueError "'yerr' must not contain negative values")
            else Ok (heights, Some errs)
        | Some (ObjSeries _) => Raise ConversionError
        end
    end.

(** [ax.set_ylim(bottom, top)]: a NaN limit is refused. *)
Definition set_ylim (bottom top : num) : outcome (Q * Q) :=
  match bottom, top with
  | Some b, Some t => Ok (b, t)
  | _, _ => Raise (ValueError "Axis limits cannot be NaN or Inf")
  end.

(** [ax.legend(bars, categories, ncol=len(categories), ...)]: the
    legend entries are split into [ncol] columns, which numpy's
    [array_split] refuses for zero columns. *)
Definition ax_legend (ncol : nat) : outcome unit :=
  if (ncol =? 0)%nat
  then Raise (ValueError "number sections must be larger than 0.")
  else Ok tt.

(** [plt.tight_layout()] and [pdf.savefig(fig)] of a chart: the tick
    labels and the title are laid out. *)
Definition layout_chart (title : string) (labels : list string) : outcome unit :=
  match layout_refuses env title labels with
  | Some report => Raise (LayoutError report)
  | None => Ok tt
  end.

(** Lines 150-154: the page of the exception handler is drawn and laid
    out. *)
Definition layout_error_page (sheet : string) (e : exn) : outcome unit :=
  match error_page_refuses env sheet e with
  | Some report => Raise (LayoutError report)
  | None => Ok tt
  end.

(** Line 86: [max(values) * 1.2 if len(values) > 0 else 1] *)
Definition upper_limit (vs : list num) : outcome num :=
  if (0 <? List.length vs)%nat then
    match py_max vs with
    | Ok m => Ok (times m (12 # 10))
    | Raise e => Raise e
    end
  else Ok (Some 1%Q).

(* ================================================================= *)
(** ** render_sheet_to_pdf *)

Definition chart_title (sheet_label col : string) : string :=
  (sheet_label ++ " – " ++ col)%string.

(** Lines 64-72: the error column is looked for, then both columns are
    read. *)
Definition read_errors (df : DataFrame) (col : string) : outcome (option Series) :=
  match find_error_col df col with
  | Some error_col =>
      match getitem df error_col with
      | Ok s => Ok (Some s)
      | Raise e => Raise e
      end
  | None => Ok None
  end.

(** The body of the loop over [value_cols] (lines 64-123). *)
Definition plot_column (df : DataFrame) (cats : list string)
    (sheet_label : string) (colors : list string) (col : string) : M unit :=
  vals <- lift (getitem df col) ;;
  errors <- lift (read_errors df col) ;;
  cs <- lift (bar_colors colors cats) ;;
  bars <- lift (ax_bar cats vals errors) ;;
  top <- lift (upper_limit (fst bars)) ;;
  lim <- lift (set_ylim (Some 0%Q) top) ;;
  lift (ax_legend (List.length cats)) ;;;
  lift (layout_chart (chart_title sheet_label col) cats) ;;;
  savefig (ChartPage
    {| title := chart_title sheet_label col;
       categories := cats;
       values := fst bars;
       yerr := snd bars;
       color := cs;
       ylim := lim;
       legend_labels := cats;
       legend_ncol := List.length cats |}).

(** Erzeuge Balkendiagramme im Big4-Stil für ein Sheet. *)
Definition render_sheet_to_pdf (df : DataFrame) (sheet_label : string)
    (colors : list string) : M unit :=
  let '(df, cat_col) := with_category df in
  let cats := astype_str_tolist (get_col df cat_col) in
  for_each (plot_column df cats sheet_label colors) (value_cols df).

(* ================================================================= *)
(** ** Main loop *)

Definition Workbook := list (string * DataFrame).

(** Lines 145-155: what is done with one sheet.  The handler is not
    itself protected: an exception raised while its page is drawn leaves
    the loop. *)
Definition process_sheet (colors : list string) (s : string * DataFrame) : M unit :=
  let '(sheet, df) := s in
  if df_empty df then ret tt
  else try_except (render_sheet_to_pdf df sheet colors)
                  (fun e => lift (layout_error_page sheet e) ;;;
                            savefig (ErrorPage sheet e)).

(** Lines 143-155.  The loop ends at the first exception that leaves a
    sheet; the script then stops before the download is offered. *)
Definition main_loop (wb : Workbook) (colors : list string) : M unit :=
  for_each (process_sheet colors) wb.

(** The pages written into [with PdfPages(...) as pdf] by the main loop,
    whether it ends or is left by an exception. *)
Definition generate (wb : Workbook) (colors : list string) : PdfPages :=
  fst (main_loop wb colors []).

(** What a computation adds to an empty document. *)
Definition pages_of {A} (m : M A) : PdfPages := fst (m []).

(* ================================================================= *)
(** ** Sample sheets *)

Definition q (z : Z) : num := Some (inject_Z z).

(** Region (text), Revenue and its error column Revenue_SD. *)
Definition sheet_q1 : DataFrame :=
  mkDataFrame 2
    [ ("Region", ObjSeries ["North"; "South"]);
      ("Revenue", NumSeries [q 100; q 80]);
      ("Revenue_SD", NumSeries [q 5; q 3]) ].

(** All columns numeric. *)
Definition sheet_ab : DataFrame :=
  mkDataFrame 2
    [ ("A", NumSeries [q 1; q 3]);
      ("B", NumSeries [q 2; q 4]) ].

(** All columns numeric, one of them called Index. *)
Definition sheet_index : DataFrame :=
  mkDataFrame 2
    [ ("A", NumSeries [q 1; q 3]);
      ("Index", NumSeries [q 7; q 9]);
      ("B", NumSeries [q 2; q 4]) ].

(** The error magnitudes of the second series are text. *)
Definition sheet_bad : DataFrame :=
  mkDataFrame 2
    [ ("Region", ObjSeries ["North"; "South"]);
      ("A", NumSeries [q 1; q 3]);
      ("B", NumSeries [q 2; q 4]);
      ("B_SD", ObjSeries ["low"; "high"]) ].

Definition sheet_empty : DataFrame := mkDataFrame 0 [].

(** One series, in a sheet whose name holds a math text that cannot be
    parsed. *)
Definition sheet_v : DataFrame :=
  mkDataFrame 2
    [ ("Region", ObjSeries ["North"; "South"]);
      ("V", NumSeries [q 1; q 3]) ].

(** An error magnitude below zero in the first series. *)
Definition sheet_neg : DataFrame :=
  mkDataFrame 2
    [ ("Region", ObjSeries ["North"; "South"]);
      ("A", NumSeries [q 1; q 3]);
      ("A_SD", NumSeries [q (-1); q 2]) ].

(** Blank cells: the last cell of B, the first cell of A. *)
Definition sheet_blank : DataFrame :=
  mkDataFrame 2
    [ ("Region", ObjSeries ["North"; "South"]);
      ("B", NumSeries [q 2; None]);
      ("A", NumSeries [None; q 3]) ].

(** Text only. *)
Definition sheet_text : DataFrame :=
  mkDataFrame 2
    [ ("Region", ObjSeries ["North"; "South"]);
      ("Note", ObjSeries ["ok"; "late"]) ].

(** No value above zero. *)
Definition sheet_loss : DataFrame :=
  mkDataFrame 2
    [ ("Region", ObjSeries ["North"; "South"]);
      ("Result", NumSeries [q (-4); q (-10)]) ].

(* ================================================================= *)
(** ** Derived views used in the statements *)

(** The frame and the category labels the charts of a sheet are drawn
    from (lines 54-60). *)
Definition sheet_frame (df : DataFrame) : DataFrame := fst (with_category df).

Definition sheet_categories (df : DataFrame) : list string :=
  astype_str_tolist (get_col (sheet_frame df) (snd (with_category df))).

Definition obind {A B} (o : outcome A) (k : A -> outcome B) : outcome B :=
  match o with
  | Ok a => k a
  | Raise e => Raise e
  end.

(** The chart one pass of the loop body saves, or the exception that pass
    raises before saving anything. *)
Definition chart_of (df : DataFrame) (cats : list string)
    (sheet_label : string) (colors : list string) (col : string)
  : outcome ChartSpec :=
  obind (getitem df col) (fun vals =>
  obind (read_errors df col) (fun errors =>
  obind (bar_colors colors cats) (fun cs =>
  obind (ax_bar cats vals errors) (fun bars =>
  obind (upper_limit (fst bars)) (fun top =>
  obind (set_ylim (Some 0%Q) top) (fun lim =>
  obind (ax_legend (List.length cats)) (fun _ =>
  obind (layout_chart (chart_title sheet_label col) cats) (fun _ =>
  Ok {| title := chart_title sheet_label col;
        categories := cats;
        values := fst bars;
        yerr := snd bars;
        color := cs;
        ylim := lim;
        legend_labels := cats;
        legend_ncol := List.length cats |})))))))).

(** The charts saved by a loop over [cols], up to the first pass that
    raises, and how the loop ends. *)
Fixpoint run_charts (f : string -> outcome ChartSpec) (cols : list string)
  : list ChartSpec * outcome unit :=
  match cols with
  | [] => ([], Ok tt)
  | col :: rest =>
      match f col with
      | Raise e => ([], Raise e)
      | Ok ch => (ch :: fst (run_charts f rest), snd (run_charts f rest))
      end
  end.

(** The same for the loop of one sheet. *)
Definition sheet_chart (df : DataFrame) (sheet : string)
    (colors : list string) (col : string) : outcome ChartSpec :=
  chart_of (sheet_frame df) (sheet_categories df) sheet colors col.

(** The charts among the pages of a document, in page order. *)
Definition charts_in (pages : PdfPages) : list ChartSpec :=
  flat_map (fun p => match p with
                     | ChartPage c => [c]
                     | ErrorPage _ _ => []
                     end) pages.

(** A computation only ever adds pages at the end of the document, and
    what it adds does not depend on the pages already there. *)
Definition appends {A} (m : M A) : Prop :=
  forall pdf, m pdf = (pdf ++ fst (m []), snd (m [])).

(* ================================================================= *)
(** ** The monad only appends *)

Lemma appends_ret {A} (a : A) : appends (ret a).
Proof. intros pdf. unfold ret. cbn. now rewrite app_nil_r. Qed.

Lemma appends_lift {A} (o : outcome A) : appends (lift o).
Proof. intros pdf. unfold lift. cbn. now rewrite app_nil_r. Qed.

Lemma appends_savefig (p : PageSpec) : appends (savefig p).
Proof. intros pdf. reflexivity. Qed.

Lemma appends_bind {A B} (m : M A) (k : A -> M B) :
  appends m -> (forall a, appends (k a)) -> appends (bind m k).
Proof.
  intros Hm Hk pdf. unfold bind.
  rewrite (Hm pdf). destruct (m []) as [p [a|e]]; cbn.
  - rewrite (Hk a (pdf ++ p)), (Hk a p). cbn. now rewrite app_assoc.
  - reflexivity.
Qed.

Lemma appends_try_except {A} (m : M A) (h : exn -> M A) :
  appends m -> (forall e, appends (h e)) -> appends (try_except m h).
Proof.
  intros Hm Hh pdf. unfold try_except.
  rewrite (Hm pdf). destruct (m []) as [p [a|e]]; cbn.
  - reflexivity.
  - rewrite (Hh e (pdf ++ p)), (Hh e p). cbn. now rewrite app_assoc.
Qed.

Lemma appends_for_each {X} (body : X -> M unit) (xs : list X) :
  (forall x, appends (body x)) -> appends (for_each body xs).
Proof.
  intros Hb. induction xs as [|x xs IH]; cbn.
  - apply appends_ret.
  - apply appends_bind; auto.
Qed.

Lemma plot_column_run df cats l colors col pdf :
  plot_column df cats l colors col pdf =
  match chart_of df cats l colors col with
  | Ok c => (pdf ++ [ChartPage c], Ok tt)
  | Raise e => (pdf, Raise e)
  end.
Proof.
  unfold plot_column, chart_of, bind, lift, obind, savefig.
  destruct (getitem df col); [|reflexivity].
  destruct (read_errors df col); [|reflexivity].
  destruct (bar_colors colors cats); [|reflexivity].
  destruct (ax_bar cats a a0); [|reflexivity].
  destruct (upper_limit (fst a2)); [|reflexivity].
  destruct (set_ylim (Some 0%Q) a3); [|reflexivity].
  destruct (ax_legend (List.length cats)); [|reflexivity].
  destruct (layout_chart (chart_title l col) cats); reflexivity.
Qed.

Lemma appends_plot_column df cats l colors col :
  appends (plot_column df cats l colors col).
Proof.
  intros pdf. rewrite !plot_column_run.
  destruct (chart_of df cats l colors col); cbn; [reflexivity|].
  now rewrite app_nil_r.
Qed.

Lemma render_sheet_unfold df l colors :
  render_sheet_to_pdf df l colors =
  for_each (plot_column (sheet_frame df) (sheet_categories df) l colors)
           (value_cols (sheet_frame df)).
Proof.
  unfold render_sheet_to_pdf, sheet_categories, sheet_frame.
  destruct (with_category df); reflexivity.
Qed.

Lemma appends_render df l colors : appends (render_sheet_to_pdf df l colors).
Proof.
  rewrite render_sheet_unfold. apply appends_for_each.
  intros x. apply appends_plot_column.
Qed.

Lemma appends_process_sheet colors s : appends (process_sheet colors s).
Proof.
  destruct s as [sheet df]. unfold process_sheet.
  destruct (df_empty df).
  - apply appends_ret.
  - apply appends_try_except.
    + apply appends_render.
    + intros e. apply appends_bind.
      * apply appends_lift.
      * intros _. apply appends_savefig.
Qed.

Lemma appends_main_loop wb colors : appends (main_loop wb colors).
Proof.
  unfold main_loop. apply appends_for_each.
  intros s. apply appends_process_sheet.
Qed.

Lemma for_each_plot_run df cats l colors cols pdf :
  for_each (plot_column df cats l colors) cols pdf =
  (pdf ++ map ChartPage (fst (run_charts (chart_of df cats l colors) cols)),
   snd (run_charts (chart_of df cats l colors) cols)).
Proof.
  revert pdf. induction cols as [|col cols IH]; intros pdf; cbn.
  - unfold ret. now rewrite app_nil_r.
  - unfold bind. rewrite plot_column_run.
    destruct (chart_of df cats l colors col) as [c|e]; cbn.
    + rewrite IH. now rewrite <- app_assoc.
    + now rewrite app_nil_r.
Qed.

(* ================================================================= *)
(** ** Column assignment and lookup *)

Lemma lookup_assign_same c s cols : lookup c (assign c s cols) = Some s.
Proof.
  induction cols as [|[n old] rest IH]; cbn.
  - now rewrite String.eqb_refl.
  - destruct (String.eqb c n) eqn:E; cbn; rewrite E; auto.
Qed.

Lemma lookup_assign_other c c' s cols :
  c' <> c -> lookup c' (assign c s cols) = lookup c' cols.
Proof.
  intros Hne. induction cols as [|[n old] rest IH]; cbn.
  - apply String.eqb_neq in Hne. now rewrite Hne.
  - destruct (String.eqb c n) eqn:E; cbn.
    + apply String.eqb_eq in E. subst n.
      apply String.eqb_neq in Hne. now rewrite Hne.
    + now rewrite IH.
Qed.

Lemma columns_assign c s cols :
  map fst (assign c s cols) =
  if existsb (String.eqb c) (map fst cols) then map fst cols
  else map fst cols ++ [c].
Proof.
  induction cols as [|[n old] rest IH]; cbn.
  - reflexivity.
  - destruct (String.eqb c n) eqn:E; cbn.
    + reflexivity.
    + rewrite IH. now destruct (existsb (String.eqb c) (map fst rest)).
Qed.

Lemma has_col_In df c : has_col df c = true <-> In c (columns df).
Proof.
  unfold has_col. rewrite existsb_exists. split.
  - intros [x [Hin Heq]]. apply String.eqb_eq in Heq. now subst.
  - intros Hin. exists c. split; [assumption | apply String.eqb_refl].
Qed.

Lemma lookup_In c cols : In c (map fst cols) -> exists s, lookup c cols = Some s.
Proof.
  induction cols as [|[n s] rest IH]; cbn; [tauto|].
  intros H. destruct (String.eqb c n) eqn:E; [eauto|].
  destruct H as [H|H]; [|auto].
  subst n. now rewrite String.eqb_refl in E.
Qed.

Lemma lookup_Forall (P : string * Series -> Prop) c s cols :
  Forall P cols -> lookup c cols = Some s -> exists n, P (n, s).
Proof.
  induction 1 as [|[n s'] rest Hp _ IH]; cbn; [discriminate|].
  destruct (String.eqb c n); [|assumption].
  intros [= ->]. eauto.
Qed.

Lemma Forall_assign (P : string * Series -> Prop) c s cols :
  Forall P cols -> (forall n, P (n, s)) -> Forall P (assign c s cols).
Proof.
  intros H Hs. induction H as [|[n old] rest Hp Hrest IH]; cbn.
  - constructor; auto.
  - destruct (String.eqb c n); constructor; auto.
Qed.

(* ================================================================= *)
(** ** Classification *)

Lemma first_non_numeric_some df cols c :
  first_non_numeric df cols = Some c ->
  exists pre post, cols = pre ++ c :: post /\
    col_is_numeric df c = false /\
    forall x, In x pre -> col_is_numeric df x = true.
Proof.
  induction cols as [|x rest IH]; cbn; [discriminate|].
  destruct (col_is_numeric df x) eqn:E; cbn.
  - intros H. destruct (IH H) as [pre [post [-> [Hc Hpre]]]].
    exists (x :: pre), post. split; [reflexivity|].
    split; [assumption|]. intros y [<-|Hy]; auto.
  - intros [= <-]. exists [], rest. split; [reflexivity|].
    split; [assumption|]. intros y [].
Qed.

Lemma first_non_numeric_none df cols :
  first_non_numeric df cols = None <->
  forall x, In x cols -> col_is_numeric df x = true.
Proof.
  induction cols as [|x rest IH]; cbn.
  - split; [intros _ y [] | reflexivity].
  - destruct (col_is_numeric df x) eqn:E; cbn.
    + rewrite IH. split.
      * intros H y [<-|Hy]; auto.
      * intros H y Hy. apply H. now right.
    + split; [discriminate|]. intros H.
      specialize (H x (or_introl eq_refl)). congruence.
Qed.

Lemma col_is_numeric_In df c : col_is_numeric df c = true -> In c (columns df).
Proof.
  unfold col_is_numeric, get_col, columns.
  induction (frame df) as [|[n s] rest IH]; cbn; [discriminate|].
  destruct (String.eqb c n) eqn:E.
  - apply String.eqb_eq in E. auto.
  - auto.
Qed.

Lemma sheet_frame_some df c :
  find_category_column df = Some c -> with_category df = (df, c).
Proof. unfold with_category. now intros ->. Qed.

Lemma sheet_frame_none df :
  find_category_column df = None ->
  with_category df = (set_col df "Index" (ObjSeries (index_as_str df)), "Index").
Proof. unfold with_category. now intros ->. Qed.

(** The category column holds text, with or without a synthetic index. *)
Lemma category_column_is_object df :
  exists l, get_col (sheet_frame df) (snd (with_category df)) = Some (ObjSeries l).
Proof.
  unfold sheet_frame.
  destruct (find_category_column df) as [c|] eqn:E.
  - rewrite (sheet_frame_some _ _ E). cbn.
    apply first_non_numeric_some in E.
    destruct E as [pre [post [Hcols [Hc _]]]].
    unfold col_is_numeric in Hc.
    assert (Hin : In c (map fst (frame df))).
    { fold (columns df). rewrite Hcols. apply in_elt. }
    destruct (lookup_In _ _ Hin) as [s Hs]. unfold get_col in *.
    rewrite Hs in *. destruct s; [discriminate|]. eauto.
  - rewrite (sheet_frame_none _ E). cbn.
    unfold get_col, set_col. cbn. rewrite lookup_assign_same. eauto.
Qed.

(** A charted column is numeric, so the loop finds its cells. *)
Lemma value_col_is_numeric df col :
  In col (value_cols df) -> exists cells, getitem df col = Ok (NumSeries cells).
Proof.
  unfold value_cols. rewrite filter_In. intros [_ H].
  unfold col_is_numeric, getitem in *.
  destruct (get_col df col) as [[cells|cells]|]; try discriminate. eauto.
Qed.

Lemma col_is_numeric_set_other df c s x :
  x <> c -> col_is_numeric (set_col df c s) x = col_is_numeric df x.
Proof.
  intros Hne. unfold col_is_numeric, get_col, set_col. cbn.
  now rewrite lookup_assign_other.
Qed.

Lemma col_is_numeric_set_same df c l :
  col_is_numeric (set_col df c (ObjSeries l)) c = false.
Proof.
  unfold col_is_numeric, get_col, set_col. cbn.
  now rewrite lookup_assign_same.
Qed.

Lemma index_not_charted df :
  find_category_column df = None ->
  ~ In "Index" (value_cols (sheet_frame df)).
Proof.
  intros E. unfold sheet_frame. rewrite (sheet_frame_none _ E). cbn.
  unfold value_cols. rewrite filter_In. intros [_ H].
  rewrite col_is_numeric_set_same in H. discriminate.
Qed.

(** The charted columns are columns of the table as it was read, in the
    order they are declared there. *)
Lemma value_cols_declared_order df :
  value_cols (sheet_frame df) =
  filter (col_is_numeric (sheet_frame df)) (columns df).
Proof.
  unfold sheet_frame.
  destruct (find_category_column df) as [c|] eqn:E.
  - now rewrite (sheet_frame_some _ _ E).
  - rewrite (sheet_frame_none _ E). cbn [fst].
    set (df' := set_col df "Index" (ObjSeries (index_as_str df))).
    unfold value_cols.
    assert (Hc : columns df' =
      if existsb (String.eqb "Index") (columns df) then columns df
      else columns df ++ ["Index"]) by apply columns_assign.
    rewrite Hc.
    destruct (existsb (String.eqb "Index") (columns df)); [reflexivity|].
    rewrite filter_app. cbn [filter]. unfold df'.
    rewrite col_is_numeric_set_same. now rewrite app_nil_r.
Qed.

(* ================================================================= *)
(** ** The chart loop *)

Lemma run_charts_in f cols ch :
  In ch (fst (run_charts f cols)) -> exists col, In col cols /\ f col = Ok ch.
Proof.
  induction cols as [|col rest IH]; cbn; [tauto|].
  destruct (f col) as [c|e] eqn:E; cbn; [|tauto].
  intros [<-|H].
  - exists col. auto.
  - destruct (IH H) as [x [Hx Hf]]. exists x. auto.
Qed.

Lemma run_charts_ok f cols :
  snd (run_charts f cols) = Ok tt ->
  Forall2 (fun col ch => f col = Ok ch) cols (fst (run_charts f cols)).
Proof.
  induction cols as [|col rest IH]; cbn; [constructor|].
  destruct (f col) as [c|e] eqn:E; cbn; [|discriminate].
  intros H. constructor; auto.
Qed.

Lemma run_charts_raise f cols e :
  snd (run_charts f cols) = Raise e ->
  exists done col rest,
    cols = done ++ col :: rest /\
    Forall2 (fun c ch => f c = Ok ch) done (fst (run_charts f cols)) /\
    f col = Raise e.
Proof.
  induction cols as [|col rest IH]; cbn; [discriminate|].
  destruct (f col) as [c|e'] eqn:E; cbn.
  - intros H. destruct (IH H) as [done [x [tl [-> [Hd Hx]]]]].
    exists (col :: done), x, tl. split; [reflexivity|].
    split; [constructor; assumption | assumption].
  - intros [= ->]. exists [], col, rest. split; [reflexivity|].
    split; [constructor | assumption].
Qed.

Lemma run_charts_prefix f cols :
  Forall2 (fun col ch => f col = Ok ch)
          (firstn (List.length (fst (run_charts f cols))) cols)
          (fst (run_charts f cols)).
Proof.
  induction cols as [|col rest IH]; cbn; [constructor|].
  destruct (f col) as [c|e] eqn:E; cbn; constructor; auto.
Qed.

Lemma chart_of_inv df cats l colors col c :
  chart_of df cats l colors col = Ok c ->
  exists vals errors cs bars top lim,
    getitem df col = Ok vals /\
    read_errors df col = Ok errors /\
    bar_colors colors cats = Ok cs /\
    ax_bar cats vals errors = Ok bars /\
    upper_limit (fst bars) = Ok top /\
    set_ylim (Some 0%Q) top = Ok lim /\
    c = mkChart (chart_title l col) cats (fst bars) (snd bars) cs lim
                cats (List.length cats).
Proof.
  unfold chart_of, obind.
  destruct (getitem df col) as [vals|] eqn:E1; [|discriminate].
  destruct (read_errors df col) as [errors|] eqn:E2; [|discriminate].
  destruct (bar_colors colors cats) as [cs|] eqn:E3; [|discriminate].
  destruct (ax_bar cats vals errors) as [bars|] eqn:E4; [|discriminate].
  destruct (upper_limit (fst bars)) as [top|] eqn:E5; [|discriminate].
  destruct (set_ylim (Some 0%Q) top) as [lim|] eqn:E6; [|discriminate].
  destruct (ax_legend (List.length cats)) as [u|]; [|discriminate].
  destruct (layout_chart (chart_title l col) cats) as [u'|]; [|discriminate].
  intros [= <-]. exists vals, errors, cs, bars, top, lim.
  repeat (split; [reflexivity || assumption|]). reflexivity.
Qed.

Lemma ax_bar_heights cats vals errors bars :
  ax_bar cats vals errors = Ok bars -> vals = NumSeries (fst bars).
Proof.
  unfold ax_bar.
  destruct (astype_str_keeps_nan env && existsb (String.eqb "nan") cats);
    [discriminate|].
  destruct vals as [heights|]; [|discriminate].
  destruct errors as [[es|es]|]; try discriminate.
  - destruct (existsb is_negative es); [discriminate|].
    now intros [= <-].
  - now intros [= <-].
Qed.

Lemma ax_bar_errors cats vals errors bars :
  ax_bar cats vals errors = Ok bars ->
  match errors with
  | None => snd bars = None
  | Some s => exists errs, s = NumSeries errs /\ snd bars = Some errs
  end.
Proof.
  unfold ax_bar.
  destruct (astype_str_keeps_nan env && existsb (String.eqb "nan") cats);
    [discriminate|].
  destruct vals as [heights|]; [|discriminate].
  destruct errors as [[es|es]|]; try discriminate.
  - destruct (existsb is_negative es); [discriminate|].
    intros [= <-]. cbn. eauto.
  - now intros [= <-].
Qed.

Lemma chart_of_title df cats l colors col c :
  chart_of df cats l colors col = Ok c -> title c = chart_title l col.
Proof.
  intros H. apply chart_of_inv in H.
  destruct H as (? & ? & ? & ? & ? & ? & _ & _ & _ & _ & _ & _ & ->).
  reflexivity.
Qed.

Lemma Forall2_titles df cats l colors cols charts :
  Forall2 (fun col ch => chart_of df cats l colors col = Ok ch) cols charts ->
  map title charts = map (chart_title l) cols.
Proof.
  induction 1 as [|col ch cols charts H _ IH]; cbn; [reflexivity|].
  now rewrite IH, (chart_of_title _ _ _ _ _ _ H).
Qed.

(** What [render_sheet_to_pdf] does to an empty document. *)
Lemma render_sheet_run df l colors :
  render_sheet_to_pdf df l colors [] =
  (map ChartPage
     (fst (run_charts (sheet_chart df l colors) (value_cols (sheet_frame df)))),
   snd (run_charts (sheet_chart df l colors) (value_cols (sheet_frame df)))).
Proof. rewrite render_sheet_unfold. now rewrite for_each_plot_run. Qed.

(** What is done with one sheet, on an empty document. *)
Lemma process_sheet_run colors sheet df :
  process_sheet colors (sheet, df) [] =
  if df_empty df then ([], Ok tt)
  else
    match snd (run_charts (sheet_chart df sheet colors)
                          (value_cols (sheet_frame df))) with
    | Ok _ =>
        (map ChartPage
           (fst (run_charts (sheet_chart df sheet colors)
                            (value_cols (sheet_frame df)))), Ok tt)
    | Raise e =>
        match error_page_refuses env sheet e with
        | None =>
            (map ChartPage
               (fst (run_charts (sheet_chart df sheet colors)
                                (value_cols (sheet_frame df))))
             ++ [ErrorPage sheet e], Ok tt)
        | Some report =>
            (map ChartPage
               (fst (run_charts (sheet_chart df sheet colors)
                                (value_cols (sheet_frame df)))),
             Raise (LayoutError report))
        end
    end.
Proof.
  unfold process_sheet.
  destruct (df_empty df); [reflexivity|].
  unfold try_except. rewrite render_sheet_run.
  destruct (snd (run_charts _ _)) as [[]|e]; [reflexivity|].
  unfold bind, lift, layout_error_page, savefig.
  destruct (error_page_refuses env sheet e); reflexivity.
Qed.

(** What one sheet adds to the document. *)
Lemma process_sheet_pages colors sheet df :
  pages_of (process_sheet colors (sheet, df)) =
  if df_empty df then []
  else
    map ChartPage
      (fst (run_charts (sheet_chart df sheet colors) (value_cols (sheet_frame df))))
    ++ match snd (run_charts (sheet_chart df sheet colors)
                             (value_cols (sheet_frame df))) with
       | Ok _ => []
       | Raise e =>
           match error_page_refuses env sheet e with
           | None => [ErrorPage sheet e]
           | Some _ => []
           end
       end.
Proof.
  unfold pages_of. rewrite process_sheet_run.
  destruct (df_empty df); [reflexivity|].
  destruct (snd (run_charts _ _)) as [[]|e]; cbn [fst];
    [now rewrite app_nil_r|].
  destruct (error_page_refuses env sheet e); cbn [fst];
    [now rewrite app_nil_r | reflexivity].
Qed.

(** How one sheet ends: an exception leaves it only when the page of the
    handler is refused. *)
Lemma process_sheet_outcome colors sheet df :
  snd (process_sheet colors (sheet, df) []) =
  if df_empty df then Ok tt
  else
    match snd (run_charts (sheet_chart df sheet colors)
                          (value_cols (sheet_frame df))) with
    | Ok _ => Ok tt
    | Raise e =>
        match error_page_refuses env sheet e with
        | None => Ok tt
        | Some report => Raise (LayoutError report)
        end
    end.
Proof.
  rewrite process_sheet_run.
  destruct (df_empty df); [reflexivity|].
  destruct (snd (run_charts _ _)) as [[]|e]; [reflexivity|].
  destruct (error_page_refuses env sheet e); reflexivity.
Qed.

(** The loop over the sheets: the next sheet is reached only when the
    one before did not leave by an exception. *)
Lemma main_loop_cons s wb colors :
  main_loop (s :: wb) colors [] =
  match snd (process_sheet colors s []) with
  | Ok _ =>
      (pages_of (process_sheet colors s) ++ fst (main_loop wb colors []),
       snd (main_loop wb colors []))
  | Raise e => (pages_of (process_sheet colors s), Raise e)
  end.
Proof.
  unfold main_loop at 1. cbn [for_each]. unfold bind, pages_of.
  destruct (process_sheet colors s []) as [p [[]|e]] eqn:E; cbn [fst snd];
    [|reflexivity].
  fold (main_loop wb colors). now rewrite (appends_main_loop wb colors p).
Qed.

(** When the loop ends without an exception, every sheet was processed
    and the document is what the sheets contribute, in sheet order. *)
Lemma main_loop_completed wb colors :
  snd (main_loop wb colors []) = Ok tt ->
  fst (main_loop wb colors []) =
    flat_map (fun s => pages_of (process_sheet colors s)) wb /\
  Forall (fun s => snd (process_sheet colors s []) = Ok tt) wb.
Proof.
  induction wb as [|s rest IH].
  - intros _. split; [reflexivity | constructor].
  - rewrite main_loop_cons.
    destruct (snd (process_sheet colors s [])) as [[]|e] eqn:E; cbn [fst snd];
      [|discriminate].
    intros H. destruct (IH H) as [Hp Hall].
    split; [cbn [flat_map]; now rewrite Hp | constructor; assumption].
Qed.

(** And when every sheet returns, the loop ends without an exception. *)
Lemma main_loop_completes wb colors :
  Forall (fun s => snd (process_sheet colors s []) = Ok tt) wb ->
  snd (main_loop wb colors []) = Ok tt.
Proof.
  induction 1 as [|s rest Hs _ IH]; [reflexivity|].
  rewrite main_loop_cons, Hs. exact IH.
Qed.

(** Every page of the document was contributed by a sheet of the
    workbook. *)
Lemma main_loop_page_origin wb colors p :
  In p (fst (main_loop wb colors [])) ->
  exists s, In s wb /\ In p (pages_of (process_sheet colors s)).
Proof.
  induction wb as [|s rest IH]; [intros []|].
  rewrite main_loop_cons.
  destruct (snd (process_sheet colors s [])) as [[]|e]; cbn [fst].
  - intros H. apply in_app_or in H. destruct H as [H|H].
    + exists s. split; [now left | exact H].
    + destruct (IH H) as [s' [Hin Hp]]. exists s'. split; [now right | exact Hp].
  - intros H. exists s. split; [now left | exact H].
Qed.

Lemma render_chart_origin df sheet colors c :
  In (ChartPage c) (pages_of (render_sheet_to_pdf df sheet colors)) ->
  exists col, In col (value_cols (sheet_frame df)) /\
              sheet_chart df sheet colors col = Ok c.
Proof.
  unfold pages_of. rewrite render_sheet_run. cbn [fst].
  rewrite in_map_iff. intros [ch [[= ->] Hin]].
  now apply run_charts_in.
Qed.

(* ================================================================= *)
(** ** The builtin max on a column with blanks *)

Lemma fold_max_nan rest : fold_left max_step rest None = None.
Proof.
  induction rest as [|x rest IH]; cbn; [reflexivity|].
  unfold max_step at 2. destruct x; cbn; exact IH.
Qed.

Lemma fold_max_some rest a :
  exists m, fold_left max_step rest (Some a) = Some m /\
    (m = a \/ In (Some m) rest) /\
    (a <= m)%Q /\
    forall v, In (Some v) rest -> (v <= m)%Q.
Proof.
  revert a. induction rest as [|x rest IH]; intros a; cbn [fold_left].
  - exists a. split; [reflexivity|]. split; [now left|].
    split; [apply Qle_refl|]. intros v [].
  - destruct x as [b|]; unfold max_step at 2; cbn [py_gt].
    + destruct (Qle_bool b a) eqn:E; cbn [negb].
      * apply Qle_bool_iff in E.
        destruct (IH a) as [m [Hf [Hm [Ham Hall]]]].
        exists m. split; [exact Hf|]. split.
        { destruct Hm as [Hm|Hm]; [now left | right; now right]. }
        split; [exact Ham|].
        intros v [[= ->]|Hv]; [eapply Qle_trans; eassumption | auto].
      * assert (Hlt : (a < b)%Q).
        { apply Qnot_le_lt. intros H. apply Qle_bool_iff in H. congruence. }
        destruct (IH b) as [m [Hf [Hm [Hbm Hall]]]].
        exists m. split; [exact Hf|]. split.
        { right. destruct Hm as [->|Hm]; [now left | now right]. }
        split.
        { eapply Qle_trans; [apply Qlt_le_weak; exact Hlt | exact Hbm]. }
        intros v [[= ->]|Hv]; [exact Hbm | auto].
    + destruct (IH a) as [m [Hf [Hm [Ham Hall]]]].
      exists m. split; [exact Hf|]. split.
      { destruct Hm as [Hm|Hm]; [now left | right; now right]. }
      split; [exact Ham|].
      intros v [H|Hv]; [discriminate | auto].
Qed.

(** When [max] does not return NaN it returns a cell of the column that
    no other number of the column exceeds. *)
Lemma py_max_greatest vs m :
  py_max vs = Ok (Some m) ->
  In (Some m) vs /\ forall v, In (Some v) vs -> (v <= m)%Q.
Proof.
  destruct vs as [|[a|] rest]; cbn; [discriminate| |].
  - intros [= H].
    destruct (fold_max_some rest a) as [m' [Hf [Hm [Ham Hall]]]].
    rewrite Hf in H. injection H as ->.
    split.
    + destruct Hm as [->|Hm]; [now left | now right].
    + intros v [[= ->]|Hv]; [exact Ham | auto].
  - rewrite fold_max_nan. discriminate.
Qed.

Lemma ylim_of_values vs top lim :
  upper_limit vs = Ok top -> set_ylim (Some 0%Q) top = Ok lim ->
  fst lim = 0%Q /\
  (vs = [] -> snd lim = 1%Q) /\
  (vs <> [] -> exists m, py_max vs = Ok (Some m) /\ snd lim = (m * (12 # 10))%Q).
Proof.
  unfold upper_limit, set_ylim. intros Hu Hs.
  destruct top as [t|]; [|discriminate]. injection Hs as <-. cbn [fst snd].
  split; [reflexivity|].
  destruct vs as [|v rest].
  - cbn in Hu. injection Hu as <-. split; [reflexivity | congruence].
  - split; [discriminate|]. intros _.
    cbn [List.length Nat.ltb Nat.leb] in Hu.
    destruct (py_max (v :: rest)) as [[m|]|e]; cbn in Hu; try discriminate.
    injection Hu as <-. exists m. split; reflexivity.
Qed.

(* ================================================================= *)
(** ** The colour comprehension *)

Lemma comprehension_total {X Y} (f : X -> outcome Y) (g : X -> Y) xs :
  (forall x, f x = Ok (g x)) -> comprehension f xs = Ok (map g xs).
Proof.
  intros H. induction xs as [|x xs IH]; cbn; [reflexivity|].
  now rewrite H, IH.
Qed.

Lemma bar_colors_cycle colors cats cs :
  (1 <= List.length colors)%nat ->
  bar_colors colors cats = Ok cs ->
  cs = map (fun i => nth (i mod List.length colors) colors "")
           (seq 0 (List.length cats)).
Proof.
  intros Hp. unfold bar_colors.
  rewrite (comprehension_total _
             (fun i => nth (i mod List.length colors) colors "")).
  - now intros [= <-].
  - intros i. unfold pick_color.
    destruct (List.length colors =? 0)%nat eqn:E; [|reflexivity].
    apply Nat.eqb_eq in E. lia.
Qed.

Lemma append_inj_l (s a b : string) : (s ++ a = s ++ b)%string -> a = b.
Proof.
  induction s as [|ch s IH]; cbn; [auto|]. intros [= H]. auto.
Qed.

Lemma chart_title_inj sheet a b : chart_title sheet a = chart_title sheet b -> a = b.
Proof.
  unfold chart_title. intros H.
  apply append_inj_l in H. now apply append_inj_l in H.
Qed.

Lemma well_formed_sheet_frame df : well_formed df -> well_formed (sheet_frame df).
Proof.
  intros H. unfold sheet_frame, with_category.
  destruct (find_category_column df); cbn [fst]; [assumption|].
  unfold well_formed, set_col. cbn [frame nrows].
  apply Forall_assign; [assumption|].
  intros n. cbn. unfold index_as_str. now rewrite length_map, length_seq.
Qed.

Lemma nrows_sheet_frame df : nrows (sheet_frame df) = nrows df.
Proof.
  unfold sheet_frame, with_category.
  now destruct (find_category_column df).
Qed.

(* ================================================================= *)
(** ** Document assembly *)

Lemma main_loop_app wb1 wb2 colors :
  snd (main_loop wb1 colors []) = Ok tt ->
  main_loop (wb1 ++ wb2) colors [] =
  (fst (main_loop wb1 colors []) ++ fst (main_loop wb2 colors []),
   snd (main_loop wb2 colors [])).
Proof.
  induction wb1 as [|s rest IH].
  - intros _. cbn [app]. now destruct (main_loop wb2 colors []).
  - cbn [app]. rewrite !main_loop_cons.
    destruct (snd (process_sheet colors s [])) as [[]|e]; cbn [fst snd];
      [|discriminate].
    intros H. rewrite (IH H). cbn [fst snd]. now rewrite app_assoc.
Qed.

(** C9, at the defect: when a sheet raises and the page of the exception
    handler is refused too, the exception leaves the loop: the document
    holds the pages of the sheets before and the charts that sheet saved
    before it failed, and no sheet after it is processed, whatever it
    holds. *)
Theorem refused_error_page_stops_the_run
    (colors : list string) (before after : Workbook)
    (sheet : string) (df : DataFrame) (e : exn) (report : string) :
  snd (main_loop before colors []) = Ok tt ->
  df_empty df = false ->
  snd (render_sheet_to_pdf df sheet colors []) = Raise e ->
  error_page_refuses env sheet e = Some report ->
  main_loop (before ++ (sheet, df) :: after) colors [] =
    (generate before colors ++ pages_of (render_sheet_to_pdf df sheet colors),
     Raise (LayoutError report)).
Proof.
  intros Hb He Hr Hrep. rewrite (main_loop_app _ _ _ Hb).
  rewrite main_loop_cons. unfold pages_of at 1 2.
  rewrite process_sheet_run, He.
  rewrite render_sheet_run in Hr. cbn [snd] in Hr. rewrite Hr, Hrep.
  cbn [fst snd]. unfold generate, pages_of. now rewrite render_sheet_run.
Qed.

(** C2, as amended: when a pass of the chart loop raises, the charts of
    the columns before the failing one stay in the document, in column
    order, and the failing column and those after it have no page; when
    the page of the exception handler can be drawn, it follows them as the
    one error page of the sheet, with the sheet name and the exception. *)
Theorem failed_sheet_keeps_charts_before_failure
    (sheet : string) (df : DataFrame) (colors : list string) (e : exn) :
  df_empty df = false ->
  snd (render_sheet_to_pdf df sheet colors []) = Raise e ->
  error_page_refuses env sheet e = None ->
  exists done col rest charts,
    value_cols (sheet_frame df) = done ++ col :: rest /\
    Forall2 (fun c ch => sheet_chart df sheet colors c = Ok ch) done charts /\
    sheet_chart df sheet colors col = Raise e /\
    pages_of (render_sheet_to_pdf df sheet colors) = map ChartPage charts /\
    process_sheet colors (sheet, df) [] =
      (map ChartPage charts ++ [ErrorPage sheet e], Ok tt).
Proof.
  intros He Hr Hpage. unfold pages_of. rewrite render_sheet_run in *.
  cbn [fst snd] in *.
  destruct (run_charts_raise _ _ _ Hr) as [done [col [rest [Hc [Hd Hx]]]]].
  exists done, col, rest.
  exists (fst (run_charts (sheet_chart df sheet colors)
                          (value_cols (sheet_frame df)))).
  split; [exact Hc|]. split; [exact Hd|]. split; [exact Hx|].
  split; [reflexivity|].
  rewrite process_sheet_run, He, Hr, Hpage. reflexivity.
Qed.

(* ================================================================= *)
(** ** Chart contents *)

(** C6: every chart a sheet produces has a y axis from 0 to 1.2 times the
    greatest value of its series, or from 0 to 1 when the series has no
    value.  The greatest value is a cell of the series that no other number
    in it exceeds (blank cells aside). *)
Theorem ylim_is_zero_to_scaled_max
    (df : DataFrame) (sheet : string) (colors : list string) (c : ChartSpec) :
  In (ChartPage c) (pages_of (render_sheet_to_pdf df sheet colors)) ->
  fst (ylim c) = 0%Q /\
  (values c = [] -> snd (ylim c) = 1%Q) /\
  (values c <> [] ->
     exists m, In (Some m) (values c) /\
               (forall v, In (Some v) (values c) -> (v <= m)%Q) /\
               py_max (values c) = Ok (Some m) /\
               snd (ylim c) = (m * (12 # 10))%Q).
Proof.
  intros Hin. apply render_chart_origin in Hin.
  destruct Hin as [col [_ Hc]]. unfold sheet_chart in Hc.
  apply chart_of_inv in Hc.
  destruct Hc as (vals & errors & cs & bars & top & lim &
                  _ & _ & _ & _ & Hu & Hs & ->).
  cbn [ylim values].
  destruct (ylim_of_values _ _ _ Hu Hs) as [H0 [Hnil Hmax]].
  split; [exact H0|]. split; [exact Hnil|].
  intros Hne. destruct (Hmax Hne) as [m [Hm Hl]].
  exists m. destruct (py_max_greatest _ _ Hm) as [Hi Hall].
  repeat split; assumption.
Qed.

(** C7: in every chart, with a palette of at least one colour, the bar at
    category index [i] has the palette colour at [i mod P]; the colour list
    has one entry per category and is the same function of the category
    index in every chart. *)
Theorem bar_color_cycles_over_categories
    (df : DataFrame) (sheet : string) (colors : list string) (c : ChartSpec) :
  In (ChartPage c) (pages_of (render_sheet_to_pdf df sheet colors)) ->
  (1 <= List.length colors)%nat ->
  List.length (color c) = List.length (categories c) /\
  forall i, (i < List.length (categories c))%nat ->
    nth_error (color c) i = nth_error colors (i mod List.length colors).
Proof.
  intros Hin Hp. apply render_chart_origin in Hin.
  destruct Hin as [col [_ Hc]]. unfold sheet_chart in Hc.
  apply chart_of_inv in Hc.
  destruct Hc as (vals & errors & cs & bars & top & lim &
                  _ & _ & Hb & _ & _ & _ & ->).
  cbn [color categories].
  apply (bar_colors_cycle _ _ _ Hp) in Hb. subst cs.
  split; [now rewrite length_map, length_seq|].
  intros i Hi.
  rewrite nth_error_map, nth_error_seq.
  apply Nat.ltb_lt in Hi. rewrite Hi. cbn.
  symmetry. apply nth_error_nth'.
  apply Nat.mod_upper_bound. lia.
Qed.

(** C8: in every chart drawn from a table with one cell per row and
    column, the labels, the values and (when present) the error magnitudes
    are whole columns of that table, so all have one entry per row and
    entry [i] of each comes from row [i]. *)
Theorem chart_lists_are_row_aligned
    (df : DataFrame) (sheet : string) (colors : list string) (c : ChartSpec) :
  well_formed df ->
  In (ChartPage c) (pages_of (render_sheet_to_pdf df sheet colors)) ->
  List.length (categories c) = List.length (values c) /\
  (forall errs, yerr c = Some errs -> List.length errs = List.length (values c)) /\
  List.length (values c) = nrows df /\
  get_col (sheet_frame df) (snd (with_category df)) = Some (ObjSeries (categories c)) /\
  exists col,
    get_col (sheet_frame df) col = Some (NumSeries (values c)) /\
    forall errs, yerr c = Some errs ->
      exists error_col,
        find_error_col (sheet_frame df) col = Some error_col /\
        get_col (sheet_frame df) error_col = Some (NumSeries errs).
Proof.
  intros Hwf Hin. apply well_formed_sheet_frame in Hwf.
  apply render_chart_origin in Hin.
  destruct Hin as [col [_ Hc]]. unfold sheet_chart in Hc.
  apply chart_of_inv in Hc.
  destruct Hc as (vals & errors & cs & bars & top & lim &
                  Hv & He & _ & Hb & _ & _ & ->).
  cbn [categories values yerr].
  destruct (category_column_is_object df) as [l Hl].
  assert (Hcat : sheet_categories df = l).
  { unfold sheet_categories. now rewrite Hl. }
  assert (Hlen : List.length l = nrows df).
  { destruct (lookup_Forall _ _ _ _ Hwf Hl) as [n Hn].
    cbn in Hn. now rewrite nrows_sheet_frame in Hn. }
  unfold getitem in Hv.
  destruct (get_col (sheet_frame df) col) as [s|] eqn:Eg; [|discriminate].
  injection Hv as ->.
  assert (Hvl : series_len vals = nrows df).
  { destruct (lookup_Forall _ _ _ _ Hwf Eg) as [n Hn].
    cbn in Hn. now rewrite nrows_sheet_frame in Hn. }
  assert (Herr : forall errs, snd bars = Some errs ->
            exists error_col,
              find_error_col (sheet_frame df) col = Some error_col /\
              get_col (sheet_frame df) error_col = Some (NumSeries errs)).
  { intros errs Hs. unfold read_errors in He.
    pose proof (ax_bar_errors _ _ _ _ Hb) as Hbe.
    destruct (find_error_col (sheet_frame df) col) as [ec|].
    - unfold getitem in He.
      destruct (get_col (sheet_frame df) ec) as [s|] eqn:Ee; [|discriminate].
      injection He as <-. exists ec. split; [reflexivity|].
      destruct Hbe as [errs' [-> Hs']]. congruence.
    - injection He as <-. congruence. }
  assert (Hfst : vals = NumSeries (fst bars)).
  { exact (ax_bar_heights _ _ _ _ Hb). }
  rewrite Hfst in Hvl. cbn in Hvl.
  rewrite Hcat. split; [congruence|]. split.
  - intros errs Hs. destruct (Herr errs Hs) as [ec [_ Hg]].
    destruct (lookup_Forall _ _ _ _ Hwf Hg) as [n Hn].
    cbn in Hn. rewrite nrows_sheet_frame in Hn. congruence.
  - split; [exact Hvl|]. split; [exact Hl|].
    exists col. rewrite <- Hfst. split; [exact Eg | exact Herr].
Qed.

(* ================================================================= *)
(** ** Error columns *)

Lemma first_present_some df cands x :
  first_present df cands = Some x -> In x cands /\ In x (columns df).
Proof.
  induction cands as [|cand rest IH]; cbn; [discriminate|].
  destruct (has_col df cand) eqn:E.
  - intros [= <-]. split; [now left | now apply has_col_In].
  - intros H. destruct (IH H). split; [now right | assumption].
Qed.

Lemma has_col_false df c : ~ In c (columns df) -> has_col df c = false.
Proof.
  intros H. destruct (has_col df c) eqn:E; [|reflexivity].
  apply has_col_In in E. contradiction.
Qed.

Lemma Forall2_In_l {A B} (R : A -> B -> Prop) xs ys x :
  Forall2 R xs ys -> In x xs -> exists y, In y ys /\ R x y.
Proof.
  induction 1 as [|a b xs ys Hr _ IH]; cbn; [tauto|].
  intros [<-|H].
  - exists b. auto.
  - destruct (IH H) as [y [Hy Hxy]]. exists y. auto.
Qed.

(** C4: the error column of [col] is the first of [col_Fehler], [col_SD],
    [col_Error] that is a column of the table; when none is, there is no
    error column; a chart of [col] carries the cells of the error column
    as its error bars, and no error bars when there is none. *)
Theorem error_column_probe_priority (df : DataFrame) (col : string) :
  let fehler := (col ++ "_Fehler")%string in
  let sd := (col ++ "_SD")%string in
  let error := (col ++ "_Error")%string in
  (In fehler (columns df) -> find_error_col df col = Some fehler) /\
  (~ In fehler (columns df) -> In sd (columns df) ->
     find_error_col df col = Some sd) /\
  (~ In fehler (columns df) -> ~ In sd (columns df) -> In error (columns df) ->
     find_error_col df col = Some error) /\
  (~ In fehler (columns df) -> ~ In sd (columns df) -> ~ In error (columns df) ->
     find_error_col df col = None) /\
  (forall cats sheet colors c,
     chart_of df cats sheet colors col = Ok c ->
     match find_error_col df col with
     | None => yerr c = None
     | Some error_col =>
         exists errs, get_col df error_col = Some (NumSeries errs) /\
                      yerr c = Some errs
     end).
Proof.
  intros fehler sd error. unfold find_error_col, candidates.
  fold fehler sd error. cbn [first_present].
  split.
  { intros H. apply has_col_In in H. now rewrite H. }
  split.
  { intros Hf Hs. rewrite (has_col_false _ _ Hf).
    apply has_col_In in Hs. now rewrite Hs. }
  split.
  { intros Hf Hs He. rewrite (has_col_false _ _ Hf), (has_col_false _ _ Hs).
    apply has_col_In in He. now rewrite He. }
  split.
  { intros Hf Hs He.
    now rewrite (has_col_false _ _ Hf), (has_col_false _ _ Hs),
                (has_col_false _ _ He). }
  intros cats sheet colors c Hc. apply chart_of_inv in Hc.
  destruct Hc as (vals & errors & cs & bars & top & lim &
                  _ & He & _ & Hb & _ & _ & ->).
  cbn [yerr]. apply ax_bar_errors in Hb.
  unfold read_errors, find_error_col, candidates in He.
  fold fehler sd error in He. cbn [first_present] in He.
  destruct (if has_col df fehler then Some fehler
            else if has_col df sd then Some sd
            else if has_col df error then Some error else None) as [ec|].
  - unfold getitem in He.
    destruct (get_col df ec) as [s|] eqn:Eg; [|discriminate].
    injection He as <-. destruct Hb as [errs [-> Hs]]. eauto.
  - injection He as <-. exact Hb.
Qed.

(** C1, as amended: the error column bound to a charted column [col] is
    itself charted exactly when it is numeric: nothing removes it from the
    charted columns, and when the sheet is drawn without an exception it
    has a chart of its own, whose values are its cells. *)
Theorem error_column_is_charted_when_numeric
    (df : DataFrame) (sheet : string) (colors : list string)
    (col error_col : string) :
  In col (value_cols (sheet_frame df)) ->
  find_error_col (sheet_frame df) col = Some error_col ->
  (In error_col (value_cols (sheet_frame df)) <->
   col_is_numeric (sheet_frame df) error_col = true) /\
  (col_is_numeric (sheet_frame df) error_col = true ->
   snd (render_sheet_to_pdf df sheet colors []) = Ok tt ->
   exists c,
     In (ChartPage c) (pages_of (render_sheet_to_pdf df sheet colors)) /\
     title c = chart_title sheet error_col /\
     get_col (sheet_frame df) error_col = Some (NumSeries (values c))).
Proof.
  intros _ Hf. apply first_present_some in Hf. destruct Hf as [_ Hcol].
  assert (Hiff : In error_col (value_cols (sheet_frame df)) <->
                 col_is_numeric (sheet_frame df) error_col = true).
  { unfold value_cols. rewrite filter_In. tauto. }
  split; [exact Hiff|].
  intros Hn Hok. apply Hiff in Hn.
  unfold pages_of. rewrite render_sheet_run in *. cbn [fst snd] in *.
  apply run_charts_ok in Hok.
  destruct (Forall2_In_l _ _ _ _ Hok Hn) as [c [Hc Hch]].
  exists c. split; [now apply in_map|].
  unfold sheet_chart in Hch. apply chart_of_inv in Hch.
  destruct Hch as (vals & errors & cs & bars & top & lim &
                   Hv & _ & _ & Hb & _ & _ & ->).
  cbn [title values]. split; [reflexivity|].
  apply ax_bar_heights in Hb. unfold getitem in Hv.
  destruct (get_col (sheet_frame df) error_col); [|discriminate].
  injection Hv as ->. now rewrite Hb.
Qed.

(* ================================================================= *)
(** ** The category column *)

Lemma sheet_categories_index df :
  find_category_column df = None -> sheet_categories df = index_as_str df.
Proof.
  intros E. unfold sheet_categories, sheet_frame.
  rewrite (sheet_frame_none _ E). cbn [fst snd].
  unfold get_col, set_col. cbn [frame]. now rewrite lookup_assign_same.
Qed.

(** C3: when some column is not numeric, the category column is the first
    such column in declared order and the table is used as it is; when all
    columns are numeric, the category is a column called Index holding the
    row positions 0, 1, ... as strings, and Index is not a charted
    column. *)
Theorem category_column_choice (df : DataFrame) :
  ((exists c, In c (columns df) /\ col_is_numeric df c = false) ->
     exists cat before after cells,
       columns df = before ++ cat :: after /\
       (forall x, In x before -> col_is_numeric df x = true) /\
       col_is_numeric df cat = false /\
       find_category_column df = Some cat /\
       with_category df = (df, cat) /\
       get_col df cat = Some (ObjSeries cells) /\
       sheet_categories df = cells)
  /\
  ((forall c, In c (columns df) -> col_is_numeric df c = true) ->
     find_category_column df = None /\
     snd (with_category df) = "Index" /\
     sheet_categories df = map str_of_nat (seq 0 (nrows df)) /\
     ~ In "Index" (value_cols (sheet_frame df))).
Proof.
  split.
  - intros [c [Hin Hc]].
    destruct (find_category_column df) as [cat|] eqn:E.
    + pose proof E as E'. apply first_non_numeric_some in E'.
      destruct E' as [before [after [Hcols [Hcat Hb]]]].
      destruct (category_column_is_object df) as [cells Hcells].
      unfold sheet_frame in Hcells.
      rewrite (sheet_frame_some _ _ E) in Hcells. cbn [fst snd] in Hcells.
      exists cat, before, after, cells.
      split; [exact Hcols|]. split; [exact Hb|]. split; [exact Hcat|].
      split; [reflexivity|]. split; [now apply sheet_frame_some|].
      split; [exact Hcells|].
      unfold sheet_categories, sheet_frame.
      rewrite (sheet_frame_some _ _ E). cbn [fst snd]. now rewrite Hcells.
    + unfold find_category_column in E.
      rewrite first_non_numeric_none in E.
      rewrite (E c Hin) in Hc. discriminate.
  - intros Hall.
    assert (E : find_category_column df = None).
    { unfold find_category_column. now apply first_non_numeric_none. }
    split; [exact E|]. split.
    { now rewrite (sheet_frame_none _ E). }
    split; [now apply sheet_categories_index|].
    now apply index_not_charted.
Qed.

(** C10: in a table whose columns are all numeric and one of which is
    called Index, that column is overwritten where it stands by the row
    positions as strings and becomes the category axis; it is not a
    charted column and no page of the sheet is a chart of it. *)
Theorem numeric_Index_column_becomes_category
    (df : DataFrame) (sheet : string) (colors : list string) :
  (forall c, In c (columns df) -> col_is_numeric df c = true) ->
  In "Index" (columns df) ->
  col_is_numeric df "Index" = true /\
  columns (sheet_frame df) = columns df /\
  snd (with_category df) = "Index" /\
  get_col (sheet_frame df) "Index" = Some (ObjSeries (index_as_str df)) /\
  sheet_categories df = index_as_str df /\
  ~ In "Index" (value_cols (sheet_frame df)) /\
  forall c, In (ChartPage c) (pages_of (render_sheet_to_pdf df sheet colors)) ->
    title c <> chart_title sheet "Index" /\ categories c = index_as_str df.
Proof.
  intros Hall Hidx.
  assert (E : find_category_column df = None).
  { unfold find_category_column. now apply first_non_numeric_none. }
  split; [now apply Hall|].
  assert (Hframe : sheet_frame df =
                   set_col df "Index" (ObjSeries (index_as_str df))).
  { unfold sheet_frame. now rewrite (sheet_frame_none _ E). }
  split.
  { rewrite Hframe. unfold columns at 1. unfold set_col. cbn [frame].
    rewrite columns_assign. fold (columns df).
    apply has_col_In in Hidx. unfold has_col in Hidx. now rewrite Hidx. }
  split; [now rewrite (sheet_frame_none _ E)|].
  split.
  { rewrite Hframe. unfold get_col, set_col. cbn [frame].
    apply lookup_assign_same. }
  split; [now apply sheet_categories_index|].
  split; [now apply index_not_charted|].
  intros c Hin. apply render_chart_origin in Hin.
  destruct Hin as [col [Hcol Hc]]. unfold sheet_chart in Hc.
  apply chart_of_inv in Hc.
  destruct Hc as (vals & errors & cs & bars & top & lim &
                  _ & _ & _ & _ & _ & _ & ->).
  cbn [title categories]. split.
  - intros Ht. apply chart_title_inj in Ht. subst col.
    now apply (index_not_charted _ E).
  - now apply sheet_categories_index.
Qed.

(* ================================================================= *)
(** ** How one pass of the chart loop can end *)

Lemma read_errors_found df col :
  exists errors,
    read_errors df col = Ok errors /\
    match find_error_col df col with
    | None => errors = None
    | Some ec => exists s, get_col df ec = Some s /\ errors = Some s
    end.
Proof.
  unfold read_errors, getitem.
  destruct (find_error_col df col) as [ec|] eqn:E.
  - apply first_present_some in E. destruct E as [_ Hin].
    destruct (lookup_In _ _ Hin) as [s Hs]. unfold get_col.
    rewrite Hs. exists (Some s). split; [reflexivity|]. eauto.
  - exists None. split; reflexivity.
Qed.

Lemma comprehension_raise {X Y} (f : X -> outcome Y) xs e :
  comprehension f xs = Raise e -> exists x, In x xs /\ f x = Raise e.
Proof.
  induction xs as [|x xs IH]; cbn; [discriminate|].
  destruct (f x) as [y|e'] eqn:E.
  - destruct (comprehension f xs) as [ys|e'']; [discriminate|].
    intros [= ->]. destruct (IH eq_refl) as [x' [Hin Hx]].
    exists x'. auto.
  - intros [= ->]. exists x. auto.
Qed.

Lemma bar_colors_empty_palette cats :
  cats <> [] -> bar_colors [] cats = Raise ZeroDivisionError.
Proof. destruct cats; [congruence | reflexivity]. Qed.

Lemma bar_colors_raise colors cats e :
  bar_colors colors cats = Raise e ->
  e = ZeroDivisionError /\ colors = [] /\ cats <> [].
Proof.
  intros H. pose proof H as H'. unfold bar_colors in H'.
  apply comprehension_raise in H'. destruct H' as [i [_ Hi]].
  unfold pick_color in Hi.
  destruct (List.length colors =? 0)%nat eqn:E; [|discriminate].
  injection Hi as <-. apply Nat.eqb_eq in E.
  destruct colors; [|discriminate].
  split; [reflexivity|]. split; [reflexivity|].
  intros ->. discriminate.
Qed.

(** [upper_limit] never raises: [max] is not reached on an empty column.
    The limit is NaN exactly when the first cell is blank. *)
Lemma upper_limit_total vs :
  exists top, upper_limit vs = Ok top /\
              (top = None <-> exists rest, vs = None :: rest).
Proof.
  destruct vs as [|[a|] rest]; unfold upper_limit; cbn.
  - exists (Some 1%Q). split; [reflexivity|].
    split; [discriminate | intros [r Hr]; discriminate].
  - destruct (fold_max_some rest a) as [m [Hf _]]. rewrite Hf.
    eexists. split; [reflexivity|]. cbn.
    split; [discriminate | intros [r Hr]; discriminate].
  - rewrite fold_max_nan. exists None. split; [reflexivity|].
    split; [eauto | reflexivity].
Qed.

Lemma ax_bar_raise cats vals errors e :
  ax_bar cats vals errors = Raise e ->
  e = TypeError \/ e = ConversionError \/
  e = ValueError "'yerr' must not contain negative values".
Proof.
  unfold ax_bar.
  destruct (astype_str_keeps_nan env && existsb (String.eqb "nan") cats).
  - intros [= <-]. now left.
  - destruct vals as [heights|]; [|intros [= <-]; right; now left].
    destruct errors as [[es|es]|]; [| |discriminate].
    + destruct (existsb is_negative es); [|discriminate].
      intros [= <-]. right. now right.
    + intros [= <-]. right. now left.
Qed.

(** The exception of the pass of a charted column is a ZeroDivisionError
    only for an empty palette; otherwise it is one of matplotlib's
    refusals. *)
Lemma chart_of_raise_cases df cats l colors col e :
  In col (value_cols df) ->
  chart_of df cats l colors col = Raise e ->
  (e = ZeroDivisionError /\ colors = [] /\ cats <> [])
  \/ e = TypeError
  \/ e = ConversionError
  \/ (exists msg, e = ValueError msg /\
                  msg <> "max() arg is an empty sequence")
  \/ (exists report, e = LayoutError report).
Proof.
  intros Hin. pose proof (value_col_is_numeric _ _ Hin) as [heights Hv].
  unfold chart_of. rewrite Hv. cbn [obind].
  destruct (read_errors_found df col) as [errors [He Hfind]].
  rewrite He. cbn [obind].
  destruct (bar_colors colors cats) as [cs|e'] eqn:Eb; cbn [obind].
  2:{ intros [= ->]. left. now apply bar_colors_raise in Eb. }
  destruct (ax_bar cats (NumSeries heights) errors) as [bars|e'] eqn:Ea;
    cbn [obind].
  2:{ intros [= ->]. apply ax_bar_raise in Ea.
      destruct Ea as [->|[->| ->]]; [now (right; left) | |].
      - right. right. now left.
      - right. right. right. left. eexists. split; [reflexivity|discriminate]. }
  destruct (upper_limit_total (fst bars)) as [top [Hu _]].
  rewrite Hu. cbn [obind].
  destruct top as [t|]; cbn [set_ylim obind].
  2:{ intros [= <-]. right. right. right. left.
      eexists. split; [reflexivity|discriminate]. }
  unfold ax_legend. destruct (List.length cats =? 0)%nat; cbn [obind].
  { intros [= <-]. right. right. right. left.
    eexists. split; [reflexivity|discriminate]. }
  unfold layout_chart.
  destruct (layout_refuses env (chart_title l col) cats) as [report|];
    cbn [obind]; [|discriminate].
  intros [= <-]. right. right. right. right. eauto.
Qed.

Lemma chart_of_blank_first_cell df cats l colors col rest c :
  get_col df col = Some (NumSeries (None :: rest)) ->
  chart_of df cats l colors col <> Ok c.
Proof.
  intros Hg Hc. apply chart_of_inv in Hc.
  destruct Hc as (vals & errors & cs & bars & top & lim &
                  Hv & _ & _ & Hb & Hu & Hs & _).
  unfold getitem in Hv. rewrite Hg in Hv. injection Hv as <-.
  apply ax_bar_heights in Hb. injection Hb as Hb. rewrite <- Hb in Hu.
  destruct (upper_limit_total (None :: rest)) as [top' [Hu' Htop]].
  rewrite Hu in Hu'. injection Hu' as <-.
  rewrite (proj2 Htop (ex_intro _ rest eq_refl)) in Hs. discriminate.
Qed.

Lemma run_charts_length f cols :
  (List.length (fst (run_charts f cols)) +
   match snd (run_charts f cols) with Ok _ => 0 | Raise _ => 1 end
   <= List.length cols)%nat.
Proof.
  induction cols as [|col rest IH]; cbn; [lia|].
  destruct (f col); cbn; lia.
Qed.

Lemma run_charts_silent f cols :
  fst (run_charts f cols) = [] /\ snd (run_charts f cols) = Ok tt <->
  cols = [].
Proof.
  split.
  - destruct cols as [|col rest]; [reflexivity|]. cbn.
    destruct (f col); cbn; intros [H1 H2]; discriminate.
  - intros ->. split; reflexivity.
Qed.

Lemma charts_in_chart_pages cs : charts_in (map ChartPage cs) = cs.
Proof.
  unfold charts_in. induction cs as [|c cs IH]; cbn; [reflexivity|].
  now rewrite IH.
Qed.

Lemma charts_in_app p1 p2 : charts_in (p1 ++ p2) = charts_in p1 ++ charts_in p2.
Proof. apply flat_map_app. Qed.

Lemma get_col_sheet_frame_other df c :
  c <> "Index" -> get_col (sheet_frame df) c = get_col df c.
Proof.
  intros Hne. unfold sheet_frame, with_category.
  destruct (find_category_column df); cbn [fst]; [reflexivity|].
  unfold get_col, set_col. cbn [frame]. now apply lookup_assign_other.
Qed.

(** A charted column is a numeric column of the table as it was read, and
    the loop reads the cells it had there. *)
Lemma value_col_original df col :
  In col (value_cols (sheet_frame df)) ->
  In col (columns df) /\ col_is_numeric df col = true /\
  get_col (sheet_frame df) col = get_col df col.
Proof.
  rewrite value_cols_declared_order, filter_In. intros [Hin Hn].
  split; [exact Hin|].
  destruct (find_category_column df) as [cat|] eqn:E.
  - unfold sheet_frame in *. rewrite (sheet_frame_some _ _ E) in *.
    cbn [fst] in *. auto.
  - destruct (String.eqb col "Index") eqn:Ei.
    + apply String.eqb_eq in Ei. subst col.
      unfold sheet_frame in Hn. rewrite (sheet_frame_none _ E) in Hn.
      cbn [fst] in Hn. rewrite col_is_numeric_set_same in Hn. discriminate.
    + apply String.eqb_neq in Ei.
      pose proof (get_col_sheet_frame_other df col Ei) as Hg.
      split; [|exact Hg].
      unfold col_is_numeric in *. now rewrite <- Hg.
Qed.

Lemma sheet_categories_length df :
  well_formed df -> List.length (sheet_categories df) = nrows df.
Proof.
  intros Hwf. apply well_formed_sheet_frame in Hwf.
  destruct (category_column_is_object df) as [l Hl].
  unfold sheet_categories. rewrite Hl. cbn.
  destruct (lookup_Forall _ _ _ _ Hwf Hl) as [n Hn].
  cbn in Hn. now rewrite nrows_sheet_frame in Hn.
Qed.

Lemma NoDup_firstn {A} n (l : list A) : NoDup l -> NoDup (firstn n l).
Proof.
  intros H. rewrite <- (firstn_skipn n l) in H.
  now apply NoDup_app_remove_r in H.
Qed.

Lemma NoDup_columns_sheet_frame df :
  NoDup (columns df) -> NoDup (columns (sheet_frame df)).
Proof.
  intros H. unfold sheet_frame, with_category.
  destruct (find_category_column df); cbn [fst]; [assumption|].
  unfold columns at 1. unfold set_col. cbn [frame].
  rewrite columns_assign. fold (columns df).
  destruct (existsb (String.eqb "Index") (columns df)) eqn:E; [assumption|].
  apply NoDup_app; [assumption | repeat constructor; intros [] |].
  intros x Hx [<-|[]].
  assert (Hh : has_col df "Index" = true) by now apply has_col_In.
  unfold has_col in Hh. congruence.
Qed.

Lemma filter_length_le_implied {A} (f g : A -> bool) (l : list A) :
  (forall x, In x l -> f x = true -> g x = true) ->
  (List.length (filter f l) <= List.length (filter g l))%nat.
Proof.
  induction l as [|x xs IH]; intros H; cbn; [lia|].
  assert (IH' : (List.length (filter f xs) <= List.length (filter g xs))%nat).
  { apply IH. intros y Hy. apply H. now right. }
  destruct (f x) eqn:Ef.
  - rewrite (H x (or_introl eq_refl) Ef). cbn. lia.
  - destruct (g x); cbn; lia.
Qed.

Lemma filter_other_names (name : string) (l : list string) :
  ~ In name l -> filter (fun c => negb (String.eqb c name)) l = l.
Proof.
  induction l as [|x xs IH]; intros Hno; cbn; [reflexivity|].
  destruct (String.eqb x name) eqn:Ex; cbn [negb].
  - apply String.eqb_eq in Ex. subst x. exfalso. apply Hno. now left.
  - f_equal. apply IH. intros H. apply Hno. now right.
Qed.

Lemma length_append_str (a b : string) :
  String.length (a ++ b)%string = (String.length a + String.length b)%nat.
Proof. induction a as [|ch a IH]; cbn; [reflexivity | now rewrite IH]. Qed.

(* ================================================================= *)
(** ** Further properties of the sheet loop *)

(** X1: whatever the document already holds, [render_sheet_to_pdf] and
    the main loop leave those pages in place and add after them the pages
    they would add to an empty document, returning or raising as they
    would there. *)
Theorem rendering_only_appends
    (df : DataFrame) (sheet : string) (colors : list string)
    (wb : Workbook) (pdf : PdfPages) :
  render_sheet_to_pdf df sheet colors pdf =
    (pdf ++ pages_of (render_sheet_to_pdf df sheet colors),
     snd (render_sheet_to_pdf df sheet colors []))
  /\ main_loop wb colors pdf =
    (pdf ++ generate wb colors, snd (main_loop wb colors [])).
Proof.
  split.
  - apply appends_render.
  - apply appends_main_loop.
Qed.

(** X2: the lookups and the guard of the loop cannot fail: when the loop
    of a sheet raises, the exception is never a KeyError (charted columns
    and bound error columns are columns of the frame) and never the
    ValueError of [max] on an empty sequence; it is a ZeroDivisionError
    only when the palette is empty and there are category labels, and it
    is raised in the pass of a charted column. *)
Theorem sheet_exception_is_never_a_lookup_failure
    (df : DataFrame) (sheet : string) (colors : list string) (e : exn) :
  snd (render_sheet_to_pdf df sheet colors []) = Raise e ->
  (forall label, e <> KeyError label) /\
  e <> ValueError "max() arg is an empty sequence" /\
  (e = ZeroDivisionError -> colors = [] /\ sheet_categories df <> []) /\
  exists col, In col (value_cols (sheet_frame df)) /\
              sheet_chart df sheet colors col = Raise e.
Proof.
  rewrite render_sheet_run. cbn [snd]. intros Hr.
  apply run_charts_raise in Hr.
  destruct Hr as [done [col [rest [Hc [_ Hx]]]]].
  assert (Hin : In col (value_cols (sheet_frame df))).
  { rewrite Hc. apply in_elt. }
  pose proof Hx as Hx'. unfold sheet_chart in Hx'.
  apply (chart_of_raise_cases _ _ _ _ _ _ Hin) in Hx'.
  split; [|split; [|split]].
  - intros label ->.
    destruct Hx' as [[H _]|[H|[H|[[m [H _]]|[r H]]]]]; discriminate.
  - intros ->.
    destruct Hx' as [[H _]|[H|[H|[[m [H Hm]]|[r H]]]]]; try discriminate.
    injection H as <-. now apply Hm.
  - intros ->.
    destruct Hx' as [[_ H]|[H|[H|[[m [H _]]|[r H]]]]];
      [exact H | discriminate ..].
  - exists col. split; assumption.
Qed.

(** X3: a numeric column whose first cell is blank never gets a chart:
    no page of the sheet is titled after it, whatever the other cells,
    the palette and the other columns are. *)
Theorem blank_first_cell_column_has_no_chart
    (df : DataFrame) (sheet : string) (colors : list string)
    (col : string) (rest : list num) (c : ChartSpec) :
  get_col (sheet_frame df) col = Some (NumSeries (None :: rest)) ->
  In (ChartPage c) (pages_of (render_sheet_to_pdf df sheet colors)) ->
  title c <> chart_title sheet col.
Proof.
  intros Hg Hin Ht. apply render_chart_origin in Hin.
  destruct Hin as [col' [_ Hc]]. unfold sheet_chart in Hc.
  rewrite (chart_of_title _ _ _ _ _ _ Hc) in Ht.
  apply chart_title_inj in Ht. subst col'.
  exact (chart_of_blank_first_cell _ _ _ _ _ _ _ Hg Hc).
Qed.

(** X4: the probe does not look at the dtype of the column it binds: a
    charted column whose bound error column holds text never gets a
    chart. *)
Theorem text_error_column_blocks_chart
    (df : DataFrame) (sheet : string) (colors : list string)
    (col ec : string) (cells : list string) (c : ChartSpec) :
  find_error_col (sheet_frame df) col = Some ec ->
  get_col (sheet_frame df) ec = Some (ObjSeries cells) ->
  In (ChartPage c) (pages_of (render_sheet_to_pdf df sheet colors)) ->
  title c <> chart_title sheet col.
Proof.
  intros Hf Hg Hin Ht. apply render_chart_origin in Hin.
  destruct Hin as [col' [_ Hc]]. unfold sheet_chart in Hc.
  rewrite (chart_of_title _ _ _ _ _ _ Hc) in Ht.
  apply chart_title_inj in Ht. subst col'.
  apply chart_of_inv in Hc.
  destruct Hc as (vals & errors & cs & bars & top & lim &
                  _ & He & _ & Hb & _ & _ & _).
  unfold read_errors, getitem in He. rewrite Hf, Hg in He.
  injection He as <-. apply ax_bar_errors in Hb.
  destruct Hb as [errs [H _]]. discriminate.
Qed.

(** X5: called with an empty palette on a table that has rows and a
    charted column, [render_sheet_to_pdf] raises the ZeroDivisionError of
    [i % len(colors)] in the pass of the first charted column and saves
    no page. *)
Theorem empty_palette_raises_before_any_page
    (df : DataFrame) (sheet : string) (pdf : PdfPages) :
  well_formed df ->
  nrows df <> 0%nat ->
  value_cols (sheet_frame df) <> [] ->
  render_sheet_to_pdf df sheet [] pdf = (pdf, Raise ZeroDivisionError).
Proof.
  intros Hwf Hrows Hv. rewrite (appends_render df sheet [] pdf).
  unfold pages_of. rewrite render_sheet_run. cbn [fst snd].
  destruct (value_cols (sheet_frame df)) as [|col rest] eqn:Ev; [congruence|].
  assert (Hin : In col (value_cols (sheet_frame df))).
  { rewrite Ev. now left. }
  assert (Hcats : sheet_categories df <> []).
  { intros Hn. apply sheet_categories_length in Hwf. rewrite Hn in Hwf.
    cbn in Hwf. congruence. }
  assert (Hc : sheet_chart df sheet [] col = Raise ZeroDivisionError).
  { unfold sheet_chart, chart_of.
    destruct (value_col_is_numeric _ _ Hin) as [heights Hh]. rewrite Hh.
    destruct (read_errors_found (sheet_frame df) col) as [errors [Hr _]].
    rewrite Hr. cbn [obind].
    now rewrite (bar_colors_empty_palette _ Hcats). }
  cbn [run_charts]. rewrite Hc. cbn. now rewrite app_nil_r.
Qed.

(** X6: a sheet that is skipped as empty or has no charted column adds no
    page and raises nothing; in particular a table of text columns only
    leaves no trace in the document, not even an error page.  Conversely
    a sheet that returns without having added a page is empty or has no
    charted column. *)
Theorem sheet_without_pages_iff
    (df : DataFrame) (sheet : string) (colors : list string) :
  (df_empty df = true \/ value_cols (sheet_frame df) = [] ->
   process_sheet colors (sheet, df) [] = ([], Ok tt))
  /\ (snd (process_sheet colors (sheet, df) []) = Ok tt ->
      pages_of (process_sheet colors (sheet, df)) = [] ->
      df_empty df = true \/ value_cols (sheet_frame df) = [])
  /\ ((forall c, In c (columns df) -> col_is_numeric df c = false) ->
      process_sheet colors (sheet, df) [] = ([], Ok tt)).
Proof.
  assert (H1 : df_empty df = true \/ value_cols (sheet_frame df) = [] ->
               process_sheet colors (sheet, df) [] = ([], Ok tt)).
  { intros H. rewrite process_sheet_run.
    destruct (df_empty df); [reflexivity|].
    destruct H as [H|H]; [discriminate|]. rewrite H. reflexivity. }
  split; [exact H1|]. split.
  - unfold pages_of. rewrite process_sheet_run.
    destruct (df_empty df); [now left|].
    set (f := sheet_chart df sheet colors).
    set (cols := value_cols (sheet_frame df)).
    intros Hok Hp. right. apply (run_charts_silent f cols).
    destruct (snd (run_charts f cols)) as [[]|e] eqn:Er.
    + cbn [fst] in Hp. apply map_eq_nil in Hp. now split.
    + destruct (error_page_refuses env sheet e); cbn [fst snd] in *.
      * discriminate.
      * apply app_eq_nil in Hp. destruct Hp as [_ Hp]. discriminate.
  - intros Hall. apply H1. right.
    destruct (value_cols (sheet_frame df)) as [|col rest] eqn:Ev; [reflexivity|].
    assert (Hin : In col (value_cols (sheet_frame df))).
    { rewrite Ev. now left. }
    apply value_col_original in Hin. destruct Hin as [Hc [Hn _]].
    rewrite (Hall col Hc) in Hn. discriminate.
Qed.

(** X7: a sheet never contributes more pages than the table has numeric
    columns, the error page included. *)
Theorem page_count_bound
    (df : DataFrame) (sheet : string) (colors : list string) :
  (List.length (pages_of (process_sheet colors (sheet, df)))
   <= List.length (value_cols df))%nat.
Proof.
  rewrite process_sheet_pages.
  destruct (df_empty df); [cbn; lia|].
  set (f := sheet_chart df sheet colors).
  pose proof (run_charts_length f (value_cols (sheet_frame df))) as Hl.
  assert (Hle : (List.length (value_cols (sheet_frame df))
                 <= List.length (value_cols df))%nat).
  { rewrite value_cols_declared_order. unfold value_cols.
    apply filter_length_le_implied. intros x Hc Hx.
    assert (Hin : In x (value_cols (sheet_frame df))).
    { rewrite value_cols_declared_order. apply filter_In. now split. }
    now apply value_col_original in Hin. }
  rewrite length_app, length_map.
  destruct (snd (run_charts f (value_cols (sheet_frame df)))) as [u|e];
    [cbn in *; lia|].
  destruct (error_page_refuses env sheet e); cbn in *; lia.
Qed.

(* ================================================================= *)
(** ** Further properties of the document *)

(** X8: an error page in the document names a non-empty sheet of the
    workbook that raised the exception it shows in [render_sheet_to_pdf];
    and when the main loop ends without an exception, every non-empty
    sheet that raised has its error page in the document. *)
Theorem error_page_iff_sheet_raised
    (wb : Workbook) (colors : list string) (sheet : string) (e : exn) :
  (In (ErrorPage sheet e) (generate wb colors) ->
   exists df, In (sheet, df) wb /\ df_empty df = false /\
              snd (render_sheet_to_pdf df sheet colors []) = Raise e /\
              error_page_refuses env sheet e = None)
  /\ (snd (main_loop wb colors []) = Ok tt ->
      (exists df, In (sheet, df) wb /\ df_empty df = false /\
                  snd (render_sheet_to_pdf df sheet colors []) = Raise e) ->
      In (ErrorPage sheet e) (generate wb colors)).
Proof.
  split.
  - intros Hin. apply main_loop_page_origin in Hin.
    destruct Hin as [[s df] [Hwb Hin]]. rewrite process_sheet_pages in Hin.
    destruct (df_empty df) eqn:He; [destruct Hin|].
    apply in_app_or in Hin. destruct Hin as [Hin|Hin].
    + apply in_map_iff in Hin. destruct Hin as [c [Hc _]]. discriminate.
    + destruct (snd (run_charts (sheet_chart df s colors)
                                (value_cols (sheet_frame df))))
        as [u|e'] eqn:Er; [destruct Hin|].
      destruct (error_page_refuses env s e') eqn:Ep; [destruct Hin|].
      destruct Hin as [[= <- <-]|[]].
      exists df. split; [exact Hwb|]. split; [exact He|].
      split; [now rewrite render_sheet_run | exact Ep].
  - intros Hok [df [Hwb [He Hr]]].
    destruct (main_loop_completed _ _ Hok) as [Hp Hall].
    unfold generate. rewrite Hp. apply in_flat_map.
    exists (sheet, df). split; [exact Hwb|].
    rewrite Forall_forall in Hall. specialize (Hall _ Hwb).
    rewrite process_sheet_outcome, He in Hall.
    rewrite process_sheet_pages, He.
    rewrite render_sheet_run in Hr. cbn [snd] in Hr. rewrite Hr in *.
    destruct (error_page_refuses env sheet e); [discriminate|].
    apply in_or_app. right. now left.
Qed.

(** X9: every chart of the document shows a numeric column of a
    non-empty sheet of the workbook: its title is made of that sheet's name
    and that column's name, and its values are the cells the column has in
    the table as it was read. *)
Theorem chart_page_shows_a_numeric_column
    (wb : Workbook) (colors : list string) (c : ChartSpec) :
  In (ChartPage c) (generate wb colors) ->
  exists sheet df col,
    In (sheet, df) wb /\ df_empty df = false /\
    In col (columns df) /\ col_is_numeric df col = true /\
    title c = chart_title sheet col /\
    get_col df col = Some (NumSeries (values c)).
Proof.
  intros Hin. apply main_loop_page_origin in Hin.
  destruct Hin as [[sheet df] [Hwb Hin]]. rewrite process_sheet_pages in Hin.
  destruct (df_empty df) eqn:He; [destruct Hin|].
  apply in_app_or in Hin. destruct Hin as [Hin|Hin].
  - apply in_map_iff in Hin. destruct Hin as [c' [[= ->] Hc]].
    apply run_charts_in in Hc. destruct Hc as [col [Hcol Hch]].
    destruct (value_col_original _ _ Hcol) as [Hin [Hn Hg]].
    exists sheet, df, col.
    split; [exact Hwb|]. split; [exact He|].
    split; [exact Hin|]. split; [exact Hn|].
    unfold sheet_chart in Hch.
    split; [now apply chart_of_title in Hch|].
    apply chart_of_inv in Hch.
    destruct Hch as (vals & errors & cs & bars & top & lim &
                     Hv & _ & _ & Hb & _ & _ & ->).
    cbn [values]. apply ax_bar_heights in Hb. unfold getitem in Hv.
    rewrite Hg in Hv. destruct (get_col df col); [|discriminate].
    injection Hv as ->. now rewrite Hb.
  - destruct (snd (run_charts _ _)) as [u|e]; [destruct Hin|].
    destruct (error_page_refuses env sheet e); [destruct Hin|].
    destruct Hin as [H|[]]. discriminate.
Qed.

(* ================================================================= *)
(** ** Further properties of the classification *)

(** X10: the category column is never a charted column, whether it is a
    column of the table or the synthetic Index, and no chart of the sheet
    is titled after it. *)
Theorem category_column_never_charted
    (df : DataFrame) (sheet : string) (colors : list string) :
  ~ In (snd (with_category df)) (value_cols (sheet_frame df)) /\
  forall c,
    In (ChartPage c) (pages_of (render_sheet_to_pdf df sheet colors)) ->
    title c <> chart_title sheet (snd (with_category df)).
Proof.
  assert (Hnot : ~ In (snd (with_category df)) (value_cols (sheet_frame df))).
  { destruct (find_category_column df) as [cat|] eqn:E.
    - unfold sheet_frame. rewrite (sheet_frame_some _ _ E). cbn [fst snd].
      apply first_non_numeric_some in E.
      destruct E as [_ [_ [_ [Hc _]]]].
      unfold value_cols. rewrite filter_In. intros [_ H]. congruence.
    - rewrite (sheet_frame_none _ E). cbn [snd].
      now apply index_not_charted. }
  split; [exact Hnot|].
  intros c Hin Ht. apply render_chart_origin in Hin.
  destruct Hin as [col [Hcol Hc]]. unfold sheet_chart in Hc.
  rewrite (chart_of_title _ _ _ _ _ _ Hc) in Ht.
  apply chart_title_inj in Ht. subst col. contradiction.
Qed.

(** X11: in a table whose columns are all numeric, the charted columns are
    all columns other than Index, in declared order; the columns other than
    Index keep their cells; and when the table has no Index column the
    synthetic one is added after the last column. *)
Theorem all_numeric_table_charts_all_but_Index (df : DataFrame) :
  (forall c, In c (columns df) -> col_is_numeric df c = true) ->
  value_cols (sheet_frame df) =
    filter (fun c => negb (String.eqb c "Index")) (columns df) /\
  (forall c, c <> "Index" -> get_col (sheet_frame df) c = get_col df c) /\
  (~ In "Index" (columns df) ->
   columns (sheet_frame df) = columns df ++ ["Index"] /\
   value_cols (sheet_frame df) = columns df).
Proof.
  intros Hall.
  assert (E : find_category_column df = None).
  { unfold find_category_column. now apply first_non_numeric_none. }
  assert (Hframe : sheet_frame df =
                   set_col df "Index" (ObjSeries (index_as_str df))).
  { unfold sheet_frame. now rewrite (sheet_frame_none _ E). }
  assert (Hv : value_cols (sheet_frame df) =
               filter (fun c => negb (String.eqb c "Index")) (columns df)).
  { rewrite value_cols_declared_order. apply filter_ext_in.
    intros c Hc. destruct (String.eqb c "Index") eqn:Ec; cbn [negb].
    - apply String.eqb_eq in Ec. subst c. rewrite Hframe.
      apply col_is_numeric_set_same.
    - apply String.eqb_neq in Ec. rewrite Hframe.
      rewrite col_is_numeric_set_other by exact Ec. now apply Hall. }
  split; [exact Hv|]. split.
  { intros c Hc. now apply get_col_sheet_frame_other. }
  intros Hno. split.
  - rewrite Hframe. unfold columns at 1. unfold set_col. cbn [frame].
    rewrite columns_assign. fold (columns df).
    destruct (existsb (String.eqb "Index") (columns df)) eqn:Ex;
      [|reflexivity].
    exfalso. apply Hno. now apply has_col_In.
  - rewrite Hv. now apply filter_other_names.
Qed.

(** X12: the error column bound to a column is a column of the table, one
    of the three candidates, and never the column itself nor a column
    called Index (so never the synthetic category). *)
Theorem error_column_is_another_column (df : DataFrame) (col ec : string) :
  find_error_col df col = Some ec ->
  In ec (columns df) /\ In ec (candidates col) /\ ec <> col /\ ec <> "Index".
Proof.
  intros H. apply first_present_some in H. destruct H as [Hc Hin].
  split; [exact Hin|]. split; [exact Hc|].
  unfold candidates in Hc. split.
  - intros ->.
    destruct Hc as [H|[H|[H|[]]]];
      apply (f_equal String.length) in H;
      rewrite length_append_str in H; cbn in H; lia.
  - intros ->.
    destruct Hc as [H|[H|[H|[]]]].
    + apply (f_equal String.length) in H.
      rewrite length_append_str in H. cbn in H. lia.
    + destruct col as [|a [|b [|c r]]]; cbn in H; try discriminate.
      apply (f_equal String.length) in H. cbn in H.
      rewrite length_append_str in H. cbn in H. lia.
    + apply (f_equal String.length) in H.
      rewrite length_append_str in H. cbn in H. lia.
Qed.

(* ================================================================= *)
(** ** Further properties of the charts *)

Lemma chart_max df sheet colors c :
  In (ChartPage c) (pages_of (render_sheet_to_pdf df sheet colors)) ->
  values c <> [] ->
  exists m, In (Some m) (values c) /\
            (forall v, In (Some v) (values c) -> (v <= m)%Q) /\
            snd (ylim c) = (m * (12 # 10))%Q.
Proof.
  intros Hin Hne. apply render_chart_origin in Hin.
  destruct Hin as [col [_ Hc]]. unfold sheet_chart in Hc.
  apply chart_of_inv in Hc.
  destruct Hc as (vals & errors & cs & bars & top & lim &
                  _ & _ & _ & _ & Hu & Hs & ->).
  cbn [ylim values] in *.
  destruct (ylim_of_values _ _ _ Hu Hs) as [_ [_ Hmax]].
  destruct (Hmax Hne) as [m [Hm Hl]].
  destruct (py_max_greatest _ _ Hm) as [Hi Hall].
  exists m. repeat split; assumption.
Qed.

(** X13: when a series has a value that is not negative, the top of the y
    axis is not below zero and no value of the series lies above it. *)
Theorem bars_fit_below_axis_top
    (df : DataFrame) (sheet : string) (colors : list string)
    (c : ChartSpec) (v0 : Q) :
  In (ChartPage c) (pages_of (render_sheet_to_pdf df sheet colors)) ->
  In (Some v0) (values c) -> (0 <= v0)%Q ->
  (0 <= snd (ylim c))%Q /\
  forall v, In (Some v) (values c) -> (v <= snd (ylim c))%Q.
Proof.
  intros Hin Hv0 Hpos.
  assert (Hne : values c <> []) by (intros Hn; rewrite Hn in Hv0; destruct Hv0).
  destruct (chart_max _ _ _ _ Hin Hne) as [m [_ [Hall ->]]].
  pose proof (Hall v0 Hv0) as Hm.
  split; [lra|]. intros v Hv. pose proof (Hall v Hv). lra.
Qed.

(** X14: when no value of a series is above zero, the top of the y axis
    is not above its bottom: the axis is inverted or has no height. *)
Theorem axis_top_not_above_bottom_without_positive_value
    (df : DataFrame) (sheet : string) (colors : list string) (c : ChartSpec) :
  In (ChartPage c) (pages_of (render_sheet_to_pdf df sheet colors)) ->
  values c <> [] ->
  (forall v, In (Some v) (values c) -> (v <= 0)%Q) ->
  (snd (ylim c) <= fst (ylim c))%Q.
Proof.
  intros Hin Hne Hneg.
  destruct (chart_max _ _ _ _ Hin Hne) as [m [Hm [_ Hl]]].
  assert (H0 : fst (ylim c) = 0%Q).
  { apply render_chart_origin in Hin.
    destruct Hin as [col [_ Hc]]. unfold sheet_chart in Hc.
    apply chart_of_inv in Hc.
    destruct Hc as (vals & errors & cs & bars & top & lim &
                    _ & _ & _ & _ & Hu & Hs & ->).
    cbn [ylim]. now destruct (ylim_of_values _ _ _ Hu Hs). }
  rewrite H0, Hl. pose proof (Hneg m Hm). lra.
Qed.

(** X15: in a table with distinct column names, no two charts of a sheet
    have the same title. *)
Theorem chart_titles_distinct
    (df : DataFrame) (sheet : string) (colors : list string) :
  NoDup (columns df) ->
  NoDup (map title (charts_in (pages_of (process_sheet colors (sheet, df))))).
Proof.
  intros Hnd. rewrite process_sheet_pages.
  destruct (df_empty df); [constructor|].
  set (f := sheet_chart df sheet colors).
  set (cols := value_cols (sheet_frame df)).
  rewrite charts_in_app, charts_in_chart_pages.
  match goal with
  | |- context [charts_in ?t] =>
      assert (Htl : charts_in t = [])
        by (destruct (snd (run_charts f cols)) as [u|e];
            [|destruct (error_page_refuses env sheet e)]; reflexivity);
      rewrite Htl
  end.
  rewrite app_nil_r.
  rewrite (Forall2_titles _ _ _ _ _ _ (run_charts_prefix f cols)).
  apply Injective_map_NoDup.
  - intros a b. apply chart_title_inj.
  - apply NoDup_firstn. unfold cols, value_cols.
    apply NoDup_filter. now apply NoDup_columns_sheet_frame.
Qed.

(** X16: all charts of a sheet carry the same category labels and the same
    bar colours; the legend of each chart lists its category labels and is
    laid out with one column per label. *)
Theorem charts_of_sheet_share_labels_and_colours
    (df : DataFrame) (sheet : string) (colors : list string)
    (c1 c2 : ChartSpec) :
  In (ChartPage c1) (pages_of (render_sheet_to_pdf df sheet colors)) ->
  In (ChartPage c2) (pages_of (render_sheet_to_pdf df sheet colors)) ->
  categories c1 = sheet_categories df /\
  categories c2 = categories c1 /\
  color c2 = color c1 /\
  legend_labels c1 = categories c1 /\
  legend_ncol c1 = List.length (categories c1).
Proof.
  intros H1 H2.
  apply render_chart_origin in H1. destruct H1 as [col1 [_ Hc1]].
  apply render_chart_origin in H2. destruct H2 as [col2 [_ Hc2]].
  unfold sheet_chart in *.
  apply chart_of_inv in Hc1.
  destruct Hc1 as (v1 & e1 & cs1 & b1 & t1 & l1 &
                   _ & _ & Hb1 & _ & _ & _ & ->).
  apply chart_of_inv in Hc2.
  destruct Hc2 as (v2 & e2 & cs2 & b2 & t2 & l2 &
                   _ & _ & Hb2 & _ & _ & _ & ->).
  cbn. rewrite Hb1 in Hb2. injection Hb2 as ->. repeat split.
Qed.

(* ================================================================= *)
(** ** Runs that end without an exception *)


(** X18: a sheet that fails leaves the pages of the other sheets as they
    are whenever the page of the exception handler can be drawn: the
    sheets before and after it contribute what they contribute in the
    workbook without it, and the loop goes on as it does there. *)
Theorem drawn_error_page_isolates_failure
    (colors : list string) (before after : Workbook)
    (sheet : string) (df : DataFrame) (e : exn) :
  snd (main_loop before colors []) = Ok tt ->
  df_empty df = false ->
  snd (render_sheet_to_pdf df sheet colors []) = Raise e ->
  error_page_refuses env sheet e = None ->
  main_loop (before ++ (sheet, df) :: after) colors [] =
    (generate before colors
       ++ (pages_of (render_sheet_to_pdf df sheet colors) ++ [ErrorPage sheet e])
       ++ generate after colors,
     snd (main_loop after colors []))
  /\ main_loop (before ++ after) colors [] =
    (generate before colors ++ generate after colors,
     snd (main_loop after colors [])).
Proof.
  intros Hb He Hr Hpage. rewrite !(main_loop_app _ _ _ Hb).
  split; [|reflexivity].
  rewrite main_loop_cons. unfold pages_of at 1 2.
  rewrite process_sheet_run, He.
  rewrite render_sheet_run in Hr. cbn [snd] in Hr. rewrite Hr, Hpage.
  cbn [fst snd]. unfold generate, pages_of. now rewrite render_sheet_run.
Qed.

End Environment.

(* ================================================================= *)
(** ** The theorems at work, in the environment of the examples *)

Lemma ylim_is_zero_to_scaled_max_witness :
  exists c,
    In (ChartPage c) (pages_of (render_sheet_to_pdf sample_env sheet_q1 "Q1" selected_colors)) /\
    values c = [q 100; q 80] /\
    fst (ylim c) = 0%Q /\
    exists m, In (Some m) (values c) /\ snd (ylim c) = (m * (12 # 10))%Q.
Proof.
  eexists. split; [left; reflexivity|]. split; [reflexivity|].
  match goal with
  | |- fst (ylim ?c) = _ /\ _ =>
      destruct (ylim_is_zero_to_scaled_max sample_env sheet_q1 "Q1" selected_colors c
                  (or_introl eq_refl)) as [H0 [_ Hmax]]
  end.
  split; [exact H0|].
  destruct (Hmax ltac:(discriminate)) as [m [Hin [_ [_ Hl]]]].
  exists m. split; assumption.
Defined.

Lemma bar_color_cycles_over_categories_witness :
  exists c,
    In (ChartPage c) (pages_of (render_sheet_to_pdf sample_env sheet_q1 "Q1" ["#111"])) /\
    nth_error (color c) 1 = nth_error ["#111"] (1 mod 1).
Proof.
  eexists. split; [left; reflexivity|].
  match goal with
  | |- nth_error (color ?c) _ = _ =>
      apply (proj2 (bar_color_cycles_over_categories sample_env sheet_q1 "Q1" ["#111"] c
                      (or_introl eq_refl) (le_n 1)) 1%nat)
  end.
  cbn. lia.
Defined.

Lemma chart_lists_are_row_aligned_witness :
  well_formed sheet_q1 /\
  exists c,
    In (ChartPage c) (pages_of (render_sheet_to_pdf sample_env sheet_q1 "Q1" selected_colors)) /\
    yerr c = Some [q 5; q 3] /\
    List.length (categories c) = List.length (values c) /\
    forall errs, yerr c = Some errs -> List.length errs = List.length (values c).
Proof.
  assert (Hwf : well_formed sheet_q1) by (repeat constructor).
  split; [exact Hwf|].
  eexists. split; [left; reflexivity|]. split; [reflexivity|].
  match goal with
  | |- List.length (categories ?c) = _ /\ _ =>
      destruct (chart_lists_are_row_aligned sample_env sheet_q1 "Q1" selected_colors c
                  Hwf (or_introl eq_refl)) as [H1 [H2 _]]
  end.
  split; assumption.
Defined.

Lemma error_column_probe_priority_witness :
  ~ In "Revenue_Fehler" (columns sheet_q1) /\
  In "Revenue_SD" (columns sheet_q1) /\
  find_error_col sheet_q1 "Revenue" = Some "Revenue_SD" /\
  ~ In "Revenue_SD_Fehler" (columns sheet_q1) /\
  ~ In "Revenue_SD_SD" (columns sheet_q1) /\
  ~ In "Revenue_SD_Error" (columns sheet_q1) /\
  find_error_col sheet_q1 "Revenue_SD" = None.
Proof.
  assert (H1 : ~ In "Revenue_Fehler" (columns sheet_q1)).
  { cbn. intros [H|[H|[H|[]]]]; discriminate. }
  assert (H2 : In "Revenue_SD" (columns sheet_q1)).
  { cbn. right. right. left. reflexivity. }
  assert (H3 : ~ In "Revenue_SD_Fehler" (columns sheet_q1)).
  { cbn. intros [H|[H|[H|[]]]]; discriminate. }
  assert (H4 : ~ In "Revenue_SD_SD" (columns sheet_q1)).
  { cbn. intros [H|[H|[H|[]]]]; discriminate. }
  assert (H5 : ~ In "Revenue_SD_Error" (columns sheet_q1)).
  { cbn. intros [H|[H|[H|[]]]]; discriminate. }
  split; [exact H1|]. split; [exact H2|]. split.
  { exact (proj1 (proj2 (error_column_probe_priority sample_env sheet_q1 "Revenue")) H1 H2). }
  split; [exact H3|]. split; [exact H4|]. split; [exact H5|].
  exact (proj1 (proj2 (proj2 (proj2
           (error_column_probe_priority sample_env sheet_q1 "Revenue_SD")))) H3 H4 H5).
Defined.

Lemma error_column_is_charted_when_numeric_witness :
  In "Revenue" (value_cols (sheet_frame sheet_q1)) /\
  find_error_col (sheet_frame sheet_q1) "Revenue" = Some "Revenue_SD" /\
  col_is_numeric (sheet_frame sheet_q1) "Revenue_SD" = true /\
  snd (render_sheet_to_pdf sample_env sheet_q1 "Q1" selected_colors []) = Ok tt /\
  exists c,
    In (ChartPage c) (pages_of (render_sheet_to_pdf sample_env sheet_q1 "Q1" selected_colors)) /\
    title c = chart_title "Q1" "Revenue_SD" /\
    get_col (sheet_frame sheet_q1) "Revenue_SD" = Some (NumSeries (values c)).
Proof.
  assert (H1 : In "Revenue" (value_cols (sheet_frame sheet_q1)))
    by (left; reflexivity).
  split; [exact H1|]. split; [reflexivity|]. split; [reflexivity|].
  split; [reflexivity|].
  exact (proj2 (error_column_is_charted_when_numeric sample_env
                  sheet_q1 "Q1" selected_colors "Revenue" "Revenue_SD"
                  H1 eq_refl) eq_refl eq_refl).
Defined.

(** C1, as stated, fails: in the sheet of the first end-to-end example,
    Revenue_SD is bound as the error column of Revenue and is charted as a
    series of its own on the second page. *)
Lemma error_column_gets_its_own_chart :
  find_error_col (sheet_frame sheet_q1) "Revenue" = Some "Revenue_SD" /\
  In "Revenue_SD" (value_cols (sheet_frame sheet_q1)) /\
  exists c1 c2,
    generate sample_env [("Q1", sheet_q1)] selected_colors = [ChartPage c1; ChartPage c2] /\
    title c1 = "Q1 – Revenue" /\ yerr c1 = Some [q 5; q 3] /\
    title c2 = "Q1 – Revenue_SD" /\ values c2 = [q 5; q 3].
Proof.
  split; [reflexivity|]. split; [right; left; reflexivity|].
  do 2 eexists. split; [reflexivity|]. repeat split.
Qed.

Lemma category_column_choice_witness :
  (exists c, In c (columns sheet_bad) /\ col_is_numeric sheet_bad c = false) /\
  (exists cat, find_category_column sheet_bad = Some cat /\
               with_category sheet_bad = (sheet_bad, cat)) /\
  (forall c, In c (columns sheet_ab) -> col_is_numeric sheet_ab c = true) /\
  sheet_categories sheet_ab = map str_of_nat (seq 0 (nrows sheet_ab)) /\
  ~ In "Index" (value_cols (sheet_frame sheet_ab)).
Proof.
  assert (H1 : exists c, In c (columns sheet_bad) /\
                         col_is_numeric sheet_bad c = false).
  { exists "B_SD". split; [|reflexivity]. cbn. tauto. }
  assert (H2 : forall c, In c (columns sheet_ab) ->
                         col_is_numeric sheet_ab c = true).
  { intros c [<-|[<-|[]]]; reflexivity. }
  split; [exact H1|]. split.
  { destruct (proj1 (category_column_choice sheet_bad) H1)
      as (cat & _ & _ & _ & _ & _ & _ & Hf & Hw & _).
    exists cat. split; assumption. }
  split; [exact H2|].
  destruct (proj2 (category_column_choice sheet_ab) H2) as (_ & _ & Hc & Hi).
  split; assumption.
Defined.

Lemma numeric_Index_column_becomes_category_witness :
  (forall c, In c (columns sheet_index) -> col_is_numeric sheet_index c = true) /\
  In "Index" (columns sheet_index) /\
  get_col (sheet_frame sheet_index) "Index" = Some (ObjSeries ["0"; "1"]) /\
  ~ In "Index" (value_cols (sheet_frame sheet_index)) /\
  map (fun p => match p with ChartPage c => title c | ErrorPage s _ => s end)
      (pages_of (render_sheet_to_pdf sample_env sheet_index "I" selected_colors)) =
    ["I – A"; "I – B"].
Proof.
  assert (H1 : forall c, In c (columns sheet_index) ->
                         col_is_numeric sheet_index c = true).
  { intros c [<-|[<-|[<-|[]]]]; reflexivity. }
  assert (H2 : In "Index" (columns sheet_index)).
  { cbn. right. left. reflexivity. }
  split; [exact H1|]. split; [exact H2|].
  destruct (numeric_Index_column_becomes_category sample_env
              sheet_index "I" selected_colors H1 H2)
    as (_ & _ & _ & Hg & _ & Hn & _).
  split; [exact Hg|]. split; [exact Hn|]. reflexivity.
Defined.

Lemma sheet_exception_is_never_a_lookup_failure_witness :
  snd (render_sheet_to_pdf sample_env sheet_q1 "Q1" [] []) = Raise ZeroDivisionError /\
  (forall label, ZeroDivisionError <> KeyError label) /\
  ZeroDivisionError <> ValueError "max() arg is an empty sequence" /\
  (ZeroDivisionError = ZeroDivisionError ->
     @nil string = [] /\ sheet_categories sheet_q1 <> []) /\
  exists col, In col (value_cols (sheet_frame sheet_q1)) /\
              sheet_chart sample_env sheet_q1 "Q1" [] col = Raise ZeroDivisionError.
Proof.
  split; [reflexivity|].
  apply (sheet_exception_is_never_a_lookup_failure sample_env sheet_q1 "Q1" []).
  reflexivity.
Defined.

Lemma blank_first_cell_column_has_no_chart_witness :
  get_col (sheet_frame sheet_blank) "A" = Some (NumSeries [None; q 3]) /\
  exists c,
    In (ChartPage c) (pages_of (render_sheet_to_pdf sample_env sheet_blank "S" selected_colors)) /\
    values c = [q 2; None] /\
    title c <> chart_title "S" "A".
Proof.
  split; [reflexivity|].
  eexists. split; [left; reflexivity|]. split; [reflexivity|].
  match goal with
  | |- title ?c <> _ =>
      exact (blank_first_cell_column_has_no_chart sample_env
               sheet_blank "S" selected_colors "A" [q 3] c
               eq_refl (or_introl eq_refl))
  end.
Defined.

Lemma text_error_column_blocks_chart_witness :
  find_error_col (sheet_frame sheet_bad) "B" = Some "B_SD" /\
  get_col (sheet_frame sheet_bad) "B_SD" = Some (ObjSeries ["low"; "high"]) /\
  exists c,
    In (ChartPage c) (pages_of (render_sheet_to_pdf sample_env sheet_bad "X" selected_colors)) /\
    title c <> chart_title "X" "B".
Proof.
  split; [reflexivity|]. split; [reflexivity|].
  eexists. split; [left; reflexivity|].
  match goal with
  | |- title ?c <> _ =>
      exact (text_error_column_blocks_chart sample_env
               sheet_bad "X" selected_colors "B" "B_SD" ["low"; "high"] c
               eq_refl eq_refl (or_introl eq_refl))
  end.
Defined.

Lemma chart_page_shows_a_numeric_column_witness :
  exists c,
    In (ChartPage c)
       (generate sample_env [("E", sheet_empty); ("S", sheet_blank)] selected_colors) /\
    exists sheet df col,
      In (sheet, df) [("E", sheet_empty); ("S", sheet_blank)] /\
      df_empty df = false /\
      In col (columns df) /\ col_is_numeric df col = true /\
      title c = chart_title sheet col /\
      get_col df col = Some (NumSeries (values c)).
Proof.
  eexists. split; [left; reflexivity|].
  apply (chart_page_shows_a_numeric_column sample_env
           [("E", sheet_empty); ("S", sheet_blank)] selected_colors).
  left. reflexivity.
Defined.

Lemma category_column_never_charted_witness :
  snd (with_category sheet_q1) = "Region" /\
  exists c,
    In (ChartPage c) (pages_of (render_sheet_to_pdf sample_env sheet_q1 "Q1" selected_colors)) /\
    title c <> chart_title "Q1" "Region".
Proof.
  split; [reflexivity|].
  eexists. split; [left; reflexivity|].
  match goal with
  | |- title ?c <> _ =>
      exact (proj2 (category_column_never_charted sample_env sheet_q1 "Q1" selected_colors)
               c (or_introl eq_refl))
  end.
Defined.

Lemma all_numeric_table_charts_all_but_Index_witness :
  (forall c, In c (columns sheet_ab) -> col_is_numeric sheet_ab c = true) /\
  ~ In "Index" (columns sheet_ab) /\
  columns (sheet_frame sheet_ab) = ["A"; "B"; "Index"] /\
  value_cols (sheet_frame sheet_ab) = ["A"; "B"].
Proof.
  assert (H1 : forall c, In c (columns sheet_ab) ->
                         col_is_numeric sheet_ab c = true).
  { intros c [<-|[<-|[]]]; reflexivity. }
  assert (H2 : ~ In "Index" (columns sheet_ab)).
  { cbn. intros [H|[H|[]]]; discriminate. }
  split; [exact H1|]. split; [exact H2|].
  exact (proj2 (proj2 (all_numeric_table_charts_all_but_Index sheet_ab H1)) H2).
Defined.

Lemma error_column_is_another_column_witness :
  find_error_col sheet_q1 "Revenue" = Some "Revenue_SD" /\
  In "Revenue_SD" (columns sheet_q1) /\
  In "Revenue_SD" (candidates "Revenue") /\
  "Revenue_SD" <> "Revenue" /\ "Revenue_SD" <> "Index".
Proof.
  split; [reflexivity|].
  exact (error_column_is_another_column sheet_q1 "Revenue" "Revenue_SD" eq_refl).
Defined.

Lemma bars_fit_below_axis_top_witness :
  exists c,
    In (ChartPage c) (pages_of (render_sheet_to_pdf sample_env sheet_q1 "Q1" selected_colors)) /\
    In (Some (inject_Z 80)) (values c) /\ (0 <= inject_Z 80)%Q /\
    (0 <= snd (ylim c))%Q /\
    forall v, In (Some v) (values c) -> (v <= snd (ylim c))%Q.
Proof.
  eexists. split; [left; reflexivity|].
  assert (H80 : (0 <= inject_Z 80)%Q) by (unfold Qle; cbn; lia).
  match goal with
  | |- In _ (values ?c) /\ _ =>
      assert (Hin : In (Some (inject_Z 80)) (values c))
        by (right; left; reflexivity);
      split; [exact Hin|]; split; [exact H80|];
      exact (bars_fit_below_axis_top sample_env sheet_q1 "Q1" selected_colors c
               (inject_Z 80) (or_introl eq_refl) Hin H80)
  end.
Defined.

Lemma axis_top_not_above_bottom_without_positive_value_witness :
  exists c,
    In (ChartPage c) (pages_of (render_sheet_to_pdf sample_env sheet_loss "L" selected_colors)) /\
    values c = [q (-4); q (-10)] /\
    (snd (ylim c) <= fst (ylim c))%Q.
Proof.
  eexists. split; [left; reflexivity|]. split; [reflexivity|].
  match goal with
  | |- (snd (ylim ?c) <= _)%Q =>
      apply (axis_top_not_above_bottom_without_positive_value sample_env
               sheet_loss "L" selected_colors c (or_introl eq_refl))
  end.
  - discriminate.
  - intros v [[= <-]|[[= <-]|[]]]; unfold Qle; cbn; lia.
Defined.

Lemma chart_titles_distinct_witness :
  NoDup (columns sheet_q1) /\
  NoDup (map title
           (charts_in (pages_of (process_sheet sample_env selected_colors ("Q1", sheet_q1))))).
Proof.
  assert (H : NoDup (columns sheet_q1)).
  { cbn. repeat constructor; cbn; intros Hin;
      repeat (destruct Hin as [Hin|Hin]; [discriminate|]); exact Hin. }
  split; [exact H|].
  exact (chart_titles_distinct sample_env sheet_q1 "Q1" selected_colors H).
Defined.

Lemma charts_of_sheet_share_labels_and_colours_witness :
  exists c1 c2,
    In (ChartPage c1) (pages_of (render_sheet_to_pdf sample_env sheet_q1 "Q1" selected_colors)) /\
    In (ChartPage c2) (pages_of (render_sheet_to_pdf sample_env sheet_q1 "Q1" selected_colors)) /\
    title c1 <> title c2 /\
    categories c2 = categories c1 /\ color c2 = color c1.
Proof.
  do 2 eexists.
  split; [left; reflexivity|]. split; [right; left; reflexivity|].
  split; [discriminate|].
  match goal with
  | |- categories ?c2 = categories ?c1 /\ _ =>
      destruct (charts_of_sheet_share_labels_and_colours sample_env
                  sheet_q1 "Q1" selected_colors c1 c2
                  (or_introl eq_refl) (or_intror (or_introl eq_refl)))
        as (_ & Hc & Hk & _)
  end.
  split; assumption.
Defined.

(** C5, at the defect: in the workbook of the sheets [$x_$] and [AB], the
    only chart of the first sheet has a title that cannot be laid out, and
    the page of the exception handler, which shows the sheet name, cannot
    be laid out either.  The exception leaves the loop: no page is written
    and sheet [AB] is never processed, although on its own it contributes
    its two charts.  The document is not the concatenation of what the
    sheets contribute. *)
Theorem aborted_run_is_not_the_concatenation :
  (exists report,
     main_loop sample_env [("$x_$", sheet_v); ("AB", sheet_ab)]
               selected_colors [] = ([], Raise (LayoutError report)))
  /\ (exists c1 c2,
        pages_of (process_sheet sample_env selected_colors ("AB", sheet_ab)) =
          [ChartPage c1; ChartPage c2] /\
        title c1 = "AB – A" /\ title c2 = "AB – B")
  /\ generate sample_env [("$x_$", sheet_v); ("AB", sheet_ab)] selected_colors
     <> flat_map (fun s => pages_of (process_sheet sample_env selected_colors s))
                 [("$x_$", sheet_v); ("AB", sheet_ab)].
Proof.
  split; [eexists; reflexivity|]. split.
  - do 2 eexists. split; [reflexivity|]. split; reflexivity.
  - discriminate.
Qed.

Lemma refused_error_page_stops_the_run_witness :
  exists e report,
    snd (main_loop sample_env [("Q1", sheet_q1)] selected_colors []) = Ok tt /\
    df_empty sheet_v = false /\
    snd (render_sheet_to_pdf sample_env sheet_v "$x_$" selected_colors []) =
      Raise e /\
    error_page_refuses sample_env "$x_$" e = Some report /\
    main_loop sample_env ([("Q1", sheet_q1)] ++ ("$x_$", sheet_v) :: [("AB", sheet_ab)])
              selected_colors [] =
      (generate sample_env [("Q1", sheet_q1)] selected_colors
         ++ pages_of (render_sheet_to_pdf sample_env sheet_v "$x_$" selected_colors),
       Raise (LayoutError report)).
Proof.
  do 2 eexists.
  split; [reflexivity|]. split; [reflexivity|].
  split; [reflexivity|]. split; [reflexivity|].
  eapply (refused_error_page_stops_the_run sample_env selected_colors
            [("Q1", sheet_q1)] [("AB", sheet_ab)] "$x_$" sheet_v);
    reflexivity.
Defined.

Lemma failed_sheet_keeps_charts_before_failure_witness :
  df_empty sheet_bad = false /\
  snd (render_sheet_to_pdf sample_env sheet_bad "X" selected_colors []) =
    Raise ConversionError /\
  error_page_refuses sample_env "X" ConversionError = None /\
  exists done col rest charts,
    value_cols (sheet_frame sheet_bad) = done ++ col :: rest /\
    Forall2 (fun c ch => sheet_chart sample_env sheet_bad "X" selected_colors c = Ok ch)
            done charts /\
    sheet_chart sample_env sheet_bad "X" selected_colors col = Raise ConversionError /\
    pages_of (render_sheet_to_pdf sample_env sheet_bad "X" selected_colors) =
      map ChartPage charts /\
    process_sheet sample_env selected_colors ("X", sheet_bad) [] =
      (map ChartPage charts ++ [ErrorPage "X" ConversionError], Ok tt).
Proof.
  split; [reflexivity|]. split; [reflexivity|]. split; [reflexivity|].
  apply (failed_sheet_keeps_charts_before_failure sample_env
           "X" sheet_bad selected_colors ConversionError); reflexivity.
Defined.

(** C2, as stated, fails: the second series of [sheet_bad] raises, and the
    sheet still contributes the chart of its first series before the error
    page. *)
Lemma failed_sheet_is_not_all_or_nothing :
  snd (render_sheet_to_pdf sample_env sheet_bad "X" selected_colors []) =
    Raise ConversionError /\
  pages_of (process_sheet sample_env selected_colors ("X", sheet_bad)) <>
    [ErrorPage "X" ConversionError] /\
  exists c,
    main_loop sample_env [("X", sheet_bad)] selected_colors [] =
      ([ChartPage c; ErrorPage "X" ConversionError], Ok tt) /\
    title c = "X – A" /\ values c = [q 1; q 3].
Proof.
  split; [reflexivity|]. split; [discriminate|].
  eexists. split; [reflexivity|]. split; reflexivity.
Qed.

Lemma empty_palette_raises_before_any_page_witness :
  well_formed sheet_q1 /\
  nrows sheet_q1 <> 0%nat /\
  value_cols (sheet_frame sheet_q1) <> [] /\
  render_sheet_to_pdf sample_env sheet_q1 "Q1" [] [] =
    ([], Raise ZeroDivisionError).
Proof.
  assert (Hwf : well_formed sheet_q1) by (repeat constructor).
  assert (Hr : nrows sheet_q1 <> 0%nat) by discriminate.
  assert (Hv : value_cols (sheet_frame sheet_q1) <> []) by discriminate.
  split; [exact Hwf|]. split; [exact Hr|]. split; [exact Hv|].
  exact (empty_palette_raises_before_any_page sample_env
           sheet_q1 "Q1" [] Hwf Hr Hv).
Defined.

Lemma sheet_without_pages_iff_witness :
  (forall c, In c (columns sheet_text) -> col_is_numeric sheet_text c = false) /\
  df_empty sheet_text = false /\
  process_sheet sample_env selected_colors ("T", sheet_text) [] = ([], Ok tt).
Proof.
  assert (H : forall c, In c (columns sheet_text) ->
                        col_is_numeric sheet_text c = false).
  { intros c [<-|[<-|[]]]; reflexivity. }
  split; [exact H|]. split; [reflexivity|].
  exact (proj2 (proj2 (sheet_without_pages_iff sample_env
                         sheet_text "T" selected_colors)) H).
Defined.

Lemma error_page_iff_sheet_raised_witness :
  snd (main_loop sample_env [("E", sheet_empty); ("X", sheet_bad)]
                 selected_colors []) = Ok tt /\
  df_empty sheet_bad = false /\
  snd (render_sheet_to_pdf sample_env sheet_bad "X" selected_colors []) =
    Raise ConversionError /\
  In (ErrorPage "X" ConversionError)
     (generate sample_env [("E", sheet_empty); ("X", sheet_bad)] selected_colors).
Proof.
  split; [reflexivity|]. split; [reflexivity|]. split; [reflexivity|].
  apply (proj2 (error_page_iff_sheet_raised sample_env
                  [("E", sheet_empty); ("X", sheet_bad)] selected_colors
                  "X" ConversionError)).
  - reflexivity.
  - exists sheet_bad. split; [right; left; reflexivity|].
    split; reflexivity.
Defined.


Lemma drawn_error_page_isolates_failure_witness :
  snd (main_loop sample_env [("Q1", sheet_q1)] selected_colors []) = Ok tt /\
  df_empty sheet_neg = false /\
  snd (render_sheet_to_pdf sample_env sheet_neg "N" selected_colors []) =
    Raise (ValueError "'yerr' must not contain negative values") /\
  error_page_refuses sample_env "N"
    (ValueError "'yerr' must not contain negative values") = None /\
  main_loop sample_env ([("Q1", sheet_q1)] ++ ("N", sheet_neg) :: [("AB", sheet_ab)])
            selected_colors [] =
    (generate sample_env [("Q1", sheet_q1)] selected_colors
       ++ (pages_of (render_sheet_to_pdf sample_env sheet_neg "N" selected_colors)
           ++ [ErrorPage "N" (ValueError "'yerr' must not contain negative values")])
       ++ generate sample_env [("AB", sheet_ab)] selected_colors,
     snd (main_loop sample_env [("AB", sheet_ab)] selected_colors [])).
Proof.
  split; [reflexivity|]. split; [reflexivity|].
  split; [reflexivity|]. split; [reflexivity|].
  apply (drawn_error_page_isolates_failure sample_env selected_colors
           [("Q1", sheet_q1)] [("AB", sheet_ab)] "N" sheet_neg);
    reflexivity.
Defined.
